(** * SG Ready heat-pump controller (src/main.cpp)

    A shallow embedding of the controller core of the ESP32 firmware: the four
    file-scope variables, the one-second countdown callback [updateMode], the
    MQTT callbacks [onMqttMessage] and [onMqttPublish], and the helpers they
    call.  Calls into the external collaborators (serial console, OLED
    display, GPIO, MQTT client) are recorded as a log of effects.  Each
    callback runs to completion before the next one starts; a run of the
    firmware is a trace of timer expiries, inbound messages and publish
    acknowledgements. *)

From Stdlib Require Import ZArith Lia List String Bool DecimalString.
Import ListNotations.
Local Open Scope string_scope.
Local Open Scope list_scope.
Local Open Scope Z_scope.

(** ** Machine integers and policy constants *)

(** Conversion to [uint32_t]: arithmetic on the two clocks is modulo 2^32. *)
Definition uint32_t (z : Z) : Z := z mod 2 ^ 32.

(** [#define MIN_STATE_SECONDS 600] *)
Definition MIN_STATE_SECONDS : Z := 600.
(** [#define MQTT_KEEPALIVE_INTERVAL uint32_t(MIN_STATE_SECONDS/10)] *)
Definition MQTT_KEEPALIVE_INTERVAL : Z := uint32_t (Z.quot MIN_STATE_SECONDS 10).
(** [#define MQTT_DEAD_TIME uint32_t(MQTT_KEEPALIVE_INTERVAL*3)] *)
Definition MQTT_DEAD_TIME : Z := uint32_t (MQTT_KEEPALIVE_INTERVAL * 3).
(** [#define SG_PIN_LSB 25] *)
Definition SG_PIN_LSB : Z := 25.

Definition g_excessName : string := "Excess".
Definition g_modeName : string := "Mode".

(** ** Global state *)

Record state : Type := mkState {
  g_excess : bool;               (* desired mode, set by the switch entity *)
  g_currentMode : Z;             (* int: committed SG Ready mode *)
  g_mqttLastResponseTime : Z;    (* uint32_t *)
  g_currentStateTime : Z         (* uint32_t: seconds in the current state *)
}.

(** The initialisers of the four globals. *)
Definition initial : state := mkState false 0 0 0.

(** ** Effects on the external collaborators *)

Inductive level : Type := LOW | HIGH.

Inductive printf_arg : Type :=
| ArgInt (i : Z)
| ArgStr (str : string).

(** Format strings are kept as the source spells them (escapes included). *)
Inductive effect : Type :=
| Display (mode : Z) (excess : bool) (remaining : Z)
| SerialPrintf (fmt : string) (args : list printf_arg)
| SerialPrint (text : string)
| DigitalWrite (pin : Z) (v : level)
| MqttPublish (topic : string) (qos : Z) (retain : bool) (payload : string).

(** ** A monad for void functions over the globals

    A computation reads and writes the globals, appends to the effect log,
    and either falls through to the next statement ([Next]) or leaves the
    enclosing function ([Return], the C++ [return;]). *)

Inductive ctl (A : Type) : Type :=
| Next (a : A)
| Return.
Arguments Next {A} a.
Arguments Return {A}.

Definition M (A : Type) : Type := state -> ctl A * state * list effect.

Definition ret {A} (a : A) : M A := fun s => (Next a, s, []).

Definition bind {A B} (c : M A) (k : A -> M B) : M B :=
  fun s =>
    match c s with
    | (Next a, s1, out1) =>
        match k a s1 with
        | (r, s2, out2) => (r, s2, out1 ++ out2)
        end
    | (Return, s1, out1) => (Return, s1, out1)
    end.

Declare Scope fn_scope.
Delimit Scope fn_scope with fn.
Notation "x <- c ;; k" := (bind c (fun x => k))
  (at level 61, c at next level, right associativity) : fn_scope.
Notation "c ;; k" := (bind c (fun _ => k))
  (at level 61, right associativity) : fn_scope.
Local Open Scope fn_scope.

Definition read {A} (field : state -> A) : M A := fun s => (Next (field s), s, []).
Definition write (upd : state -> state) : M unit := fun s => (Next tt, upd s, []).
Definition emit (e : effect) : M unit := fun s => (Next tt, s, [e]).
Definition return_ : M unit := fun s => (Return, s, []).
Definition when (b : bool) (c : M unit) : M unit := if b then c else ret tt.

(** A call of a void function: a [return] inside the callee ends the callee
    only. *)
Definition call (f : M unit) : M unit :=
  fun s => match f s with (_, s1, out) => (Next tt, s1, out) end.

(** Running a callback to completion: final globals and the effects made. *)
Definition exec (f : M unit) (s : state) : state * list effect :=
  match f s with (_, s1, out) => (s1, out) end.

Definition set_excess (b : bool) (s : state) : state :=
  mkState b (g_currentMode s) (g_mqttLastResponseTime s) (g_currentStateTime s).
Definition set_currentMode (m : Z) (s : state) : state :=
  mkState (g_excess s) m (g_mqttLastResponseTime s) (g_currentStateTime s).
Definition set_mqttLastResponseTime (t : Z) (s : state) : state :=
  mkState (g_excess s) (g_currentMode s) t (g_currentStateTime s).
Definition set_currentStateTime (t : Z) (s : state) : state :=
  mkState (g_excess s) (g_currentMode s) (g_mqttLastResponseTime s) t.

(** ** Helpers *)

(** The C++ [String] concatenation. *)
Infix "+++" := String.append (at level 60, right associativity).

(** [String(int)]: the decimal rendering. *)
Definition String_of_int (i : Z) : string := NilZero.string_of_int (Z.to_int i).

(** [g_excess ? "ON" : "OFF"] *)
Definition on_off (b : bool) : string := if b then "ON" else "OFF".

(** [DrawDisplay]: the lines that depend on the globals; the Wi-Fi and MQTT
    connection lines belong to the collaborators. *)
Definition DrawDisplay : M unit :=
  s <- read id ;;
  emit (Display (g_currentMode s) (g_excess s)
          (uint32_t (MIN_STATE_SECONDS - g_currentStateTime s))).

Definition setPins : M unit :=
  mode <- read g_currentMode ;;
  emit (SerialPrintf "Setting pins for mode %i.\n" [ArgInt mode]) ;;
  emit (DigitalWrite SG_PIN_LSB (if mode =? 0 then LOW else HIGH)).

Definition uniqueID : string := "sgready_board".

Definition entityTopic (name : string) : string := uniqueID +++ "_" +++ name.

(** publish the control switch state *)
Definition mqttPublishExcess : M unit :=
  excess <- read g_excess ;;
  emit (SerialPrintf "Publishing excess '%s'.\n" [ArgStr (on_off excess)]) ;;
  let topic := entityTopic g_excessName +++ "/state" in
  emit (MqttPublish topic 1 true (on_off excess)).

(** publish the current SG Ready mode *)
Definition mqttPublishMode : M unit :=
  mode <- read g_currentMode ;;
  emit (SerialPrintf "Publishing mode %i.\n" [ArgInt mode]) ;;
  let topic := entityTopic g_modeName +++ "/state" in
  emit (MqttPublish topic 1 true (String_of_int mode)).

(** ** The countdown callback *)

(** The unsigned difference computed at line 140. *)
Definition mqttDiff (now last : Z) : Z := uint32_t (now - last).

(** The test of line 142. *)
Definition mqtt_dead (now last : Z) : bool := MQTT_DEAD_TIME <? mqttDiff now last.

(** [++g_currentStateTime]: increments modulo 2^32 and yields the new value. *)
Definition pre_incr_currentStateTime : M Z :=
  t <- read g_currentStateTime ;;
  write (set_currentStateTime (uint32_t (t + 1))) ;;
  read g_currentStateTime.

(** auto-restarting countdown timer has expired *)
Definition updateMode : M unit :=
  call DrawDisplay ;;
  (* solicit keep-alive by publishing our mode *)
  t0 <- read g_currentStateTime ;;
  when (t0 mod MQTT_KEEPALIVE_INTERVAL =? 0) (call mqttPublishMode) ;;
  (* stay in the current state for at least 10 minutes *)
  t <- pre_incr_currentStateTime ;;
  when (t <? MIN_STATE_SECONDS) return_ ;;
  (* how long since we last heard an ACK from the MQTT server? *)
  last <- read g_mqttLastResponseTime ;;
  let diff := mqttDiff t last in
  when (mqtt_dead t last)
    (excess <- read g_excess ;;
     if excess : bool then
       emit (SerialPrintf
               "No MQTT response received in %u seconds, reverting to normal mode.\n"
               [ArgInt diff]) ;;
       write (set_excess false)
     else
       (* ensure our pins are in normal mode every so often *)
       when (t mod 30 =? 0)
         (emit (SerialPrint "Paranoid pin set: ") ;; call setPins) ;;
       return_) ;;
  (* do nothing if no state change requested *)
  mode <- read g_currentMode ;;
  excess <- read g_excess ;;
  when (mode =? Z.b2z excess) return_ ;;
  write (set_currentStateTime 0) ;;
  write (set_currentMode (Z.b2z excess)) ;;
  call setPins ;;
  call mqttPublishMode ;;
  call mqttPublishExcess ;;
  call DrawDisplay.

(** ** The MQTT callbacks *)

(** [topic] and [payload] are the two [String]s the handler builds from its
    [char*] arguments. *)
Definition onMqttMessage (topic payload : string) : M unit :=
  let sTopic := topic in
  let sPayload := payload in
  write (set_excess false) ;;
  (if String.eqb sTopic (entityTopic g_excessName +++ "/set") then
     if String.eqb sPayload "ON" then
       write (set_excess true)   (* valid 'on' command received *)
     else
       when (negb (String.eqb sPayload "OFF"))
         (emit (SerialPrintf "Error: Invalid MQTT payload '%s'." [ArgStr payload]))
   else
     emit (SerialPrintf "Error: MQTT message for unknown topic '%s'." [ArgStr topic])) ;;
  call mqttPublishExcess ;;   (* reflect the updated state back to HA *)
  call DrawDisplay.

Definition onMqttPublish (packetId : Z) : M unit :=
  t <- read g_currentStateTime ;;
  write (set_mqttLastResponseTime t).

(** ** Event traces *)

Inductive event : Type :=
| Tick                                  (* the countdown timer fires *)
| Message (topic payload : string)      (* an inbound MQTT message *)
| PublishAck (packetId : Z).            (* the broker acknowledges a publish *)

Definition handler (ev : event) : M unit :=
  match ev with
  | Tick => updateMode
  | Message topic payload => onMqttMessage topic payload
  | PublishAck packetId => onMqttPublish packetId
  end.

Definition step (ev : event) (s : state) : state := fst (exec (handler ev) s).

Definition effects (ev : event) (s : state) : list effect := snd (exec (handler ev) s).

(** The globals after a trace of events. *)
Fixpoint run (evs : list event) (s : state) : state :=
  match evs with
  | [] => s
  | ev :: evs' => run evs' (step ev s)
  end.

(** Everything the controller did to its collaborators along a trace. *)
Fixpoint run_effects (evs : list event) (s : state) : list effect :=
  match evs with
  | [] => []
  | ev :: evs' => effects ev s ++ run_effects evs' (step ev s)
  end.

Definition reachable (s : state) : Prop := exists evs, run evs initial = s.


(** ** The callbacks as functions of the globals

    Closed forms of the callbacks, used in the proofs; each is proved equal
    to the embedded callback ([step_Tick], [effects_Message]). *)

(** What a tick does to the globals, path by path. *)
Definition tick_state (s : state) : state :=
  let t := uint32_t (g_currentStateTime s + 1) in
  if t <? MIN_STATE_SECONDS then set_currentStateTime t s
  else if mqtt_dead t (g_mqttLastResponseTime s) then
    if g_excess s then
      if g_currentMode s =? 0
      then mkState false (g_currentMode s) (g_mqttLastResponseTime s) t
      else mkState false 0 (g_mqttLastResponseTime s) 0
    else set_currentStateTime t s
  else if g_currentMode s =? Z.b2z (g_excess s) then set_currentStateTime t s
  else mkState (g_excess s) (Z.b2z (g_excess s)) (g_mqttLastResponseTime s) 0.

(** The effects of the message handler after its diagnostics: the echo of the
    switch state and the display refresh. *)
Definition echo (s : state) : list effect :=
  [ SerialPrintf "Publishing excess '%s'.\n" [ArgStr (on_off (g_excess s))];
    MqttPublish (entityTopic g_excessName +++ "/state") 1 true (on_off (g_excess s));
    Display (g_currentMode s) (g_excess s)
      (uint32_t (MIN_STATE_SECONDS - g_currentStateTime s)) ].

(** The diagnostics of the message handler. *)
Definition diagnostics (topic payload : string) : list effect :=
  if String.eqb topic (entityTopic g_excessName +++ "/set") then
    if String.eqb payload "ON" || String.eqb payload "OFF" then []
    else [SerialPrintf "Error: Invalid MQTT payload '%s'." [ArgStr payload]]
  else [SerialPrintf "Error: MQTT message for unknown topic '%s'." [ArgStr topic]].

(** ** Observations on traces *)

(** The recognised command address and the two state addresses. *)
Definition command_topic : string := entityTopic g_excessName +++ "/set".
Definition excess_state_topic : string := entityTopic g_excessName +++ "/state".
Definition mode_state_topic : string := entityTopic g_modeName +++ "/state".

Definition count_ticks (evs : list event) : nat :=
  List.length (filter (fun ev => match ev with Tick => true | _ => false end) evs).

(** [n] consecutive timer expiries. *)
Definition ticks (n : nat) : list event := repeat Tick n.

(** The event changes the committed mode. *)
Definition mode_changes (ev : event) (s : state) : bool :=
  negb (g_currentMode (step ev s) =? g_currentMode s).

(** The indices of the ticks (counted from [now]) at which the committed mode
    changes along a trace. *)
Fixpoint commit_ticks (evs : list event) (s : state) (now : nat) : list nat :=
  match evs with
  | [] => []
  | Tick :: evs' =>
      (if mode_changes Tick s then [now] else [])
      ++ commit_ticks evs' (step Tick s) (S now)
  | ev :: evs' => commit_ticks evs' (step ev s) now
  end.

Definition is_mode_publish (e : effect) : bool :=
  match e with
  | MqttPublish topic _ _ _ => String.eqb topic mode_state_topic
  | _ => false
  end.

Definition is_pin_write (e : effect) : bool :=
  match e with
  | DigitalWrite _ _ => true
  | _ => false
  end.

(** How many times the committed mode is published. *)
Definition mode_publishes (out : list effect) : nat :=
  List.length (filter is_mode_publish out).

(** The indices of the ticks (counted from [now]) that publish the mode. *)
Fixpoint publish_ticks (evs : list event) (s : state) (now : nat) : list nat :=
  match evs with
  | [] => []
  | Tick :: evs' =>
      (if (0 <? mode_publishes (effects Tick s))%nat then [now] else [])
      ++ publish_ticks evs' (step Tick s) (S now)
  | ev :: evs' => publish_ticks evs' (step ev s) now
  end.

(** Successive entries of a list of tick indices lie at least [d] apart, the
    first one not before [lo]. *)
Fixpoint spaced (d lo : Z) (l : list nat) : Prop :=
  match l with
  | [] => True
  | t :: l' => lo <= Z.of_nat t /\ spaced d (Z.of_nat t + d) l'
  end.

(** Excess is requested at start-up and committed at tick 599, the 600th;
    "OFF" is committed 600 ticks later, each time with a fresh
    acknowledgement. *)
Definition two_commits : list event :=
  [Message command_topic "ON"] ++ ticks 599 ++ [PublishAck 1; Tick] ++
  ticks 599 ++ [PublishAck 2; Message command_topic "OFF"; Tick].

(** The tick that starts in [s] reaches the liveness test of line 142 and
    finds the broker dead. *)
Definition judged_dead (s : state) : bool :=
  let t := uint32_t (g_currentStateTime s + 1) in
  negb (t <? MIN_STATE_SECONDS) && mqtt_dead t (g_mqttLastResponseTime s).

(** The number of ticks after the last acknowledgement of a trace, counted
    on top of [a] when the trace has none. *)
Fixpoint quiet_ticks_from (a : nat) (evs : list event) : nat :=
  match evs with
  | [] => a
  | Tick :: evs' => quiet_ticks_from (S a) evs'
  | PublishAck _ :: evs' => quiet_ticks_from 0 evs'
  | Message _ _ :: evs' => quiet_ticks_from a evs'
  end.

Definition quiet_ticks (evs : list event) : nat := quiet_ticks_from 0 evs.

(** The clocks agree with [d] ticks since the last commit and, when the last
    acknowledgement came after it, with [a] ticks since that
    acknowledgement. *)
Definition clocks_track (s : state) (d a : Z) : Prop :=
  0 <= a /\ 0 <= d /\
  g_currentStateTime s = uint32_t d /\
  (a < d -> g_mqttLastResponseTime s = uint32_t (d - a)).

(** The fail-safe scenario: excess mode committed and still requested, the
    last acknowledgement recorded at dwell clock 50. *)
Definition excess_acked_at_50 : state := mkState true 1 50 50.

(** Excess is requested and committed with a live broker; the broker
    acknowledges once more 50 ticks later, "OFF" arrives, and from then on
    nothing is heard. *)
Definition off_then_silence : list event :=
  [Message command_topic "ON"] ++ ticks 599 ++ [PublishAck 1; Tick] ++
  ticks 50 ++ [PublishAck 2; Message command_topic "OFF"].

(** 1000 ticks with one commit: excess is requested after 600 ticks, with a
    fresh acknowledgement, and committed by the next tick. *)
Definition commit_after_600 : list event :=
  ticks 600 ++ [PublishAck 1; Message command_topic "ON"] ++ ticks 400.

(** Unfolds a callback down to its effect on the globals and the log. *)
Ltac unfold_fn :=
  cbv [step effects exec handler updateMode onMqttMessage onMqttPublish
       pre_incr_currentStateTime DrawDisplay setPins mqttPublishMode
       mqttPublishExcess call bind ret read write emit return_ when
       fst snd id app].


(** ** Further observations on the controller core *)

(** [g_currentMode ? HIGH : LOW], the level [setPins] drives. *)
Definition level_of_mode (mode : Z) : level := if mode =? 0 then LOW else HIGH.

(** The level of the SG Ready pin after a log of effects, [p] before it. *)
Definition pin_after (out : list effect) (p : level) : level :=
  fold_left
    (fun p e =>
       match e with
       | DigitalWrite pin v => if pin =? SG_PIN_LSB then v else p
       | _ => p
       end) out p.

Definition is_high_write (e : effect) : bool :=
  match e with
  | DigitalWrite _ HIGH => true
  | _ => false
  end.

(** The payload of the last retained publish call on [topic] in a log of
    effects, [r] if the log holds none: what the broker retains for the
    topic when every call reaches it. *)
Definition retained (topic : string) (out : list effect) (r : string) : string :=
  fold_left
    (fun r e =>
       match e with
       | MqttPublish t _ true payload => if String.eqb t topic then payload else r
       | _ => r
       end) out r.

Definition is_excess_publish (e : effect) : bool :=
  match e with
  | MqttPublish topic _ _ _ => String.eqb topic excess_state_topic
  | _ => false
  end.

(** How many times the desired mode is published. *)
Definition excess_publishes (out : list effect) : nat :=
  List.length (filter is_excess_publish out).

(** [n] ticks, each preceded by an acknowledgement from the broker. *)
Definition acked_ticks (n : nat) : list event :=
  List.concat (repeat [PublishAck 0; Tick] n).

(** The trace holds no acknowledgement. *)
Definition no_ack (evs : list event) : bool :=
  forallb (fun ev => match ev with PublishAck _ => false | _ => true end) evs.

(** The effects of the commit at the end of [updateMode], with [excess] the
    desired mode at that point. *)
Definition commit_effects (s : state) (excess : bool) : list effect :=
  if g_currentMode s =? Z.b2z excess then []
  else
    [ SerialPrintf "Setting pins for mode %i.\n" [ArgInt (Z.b2z excess)];
      DigitalWrite SG_PIN_LSB (level_of_mode (Z.b2z excess));
      SerialPrintf "Publishing mode %i.\n" [ArgInt (Z.b2z excess)];
      MqttPublish mode_state_topic 1 true (String_of_int (Z.b2z excess));
      SerialPrintf "Publishing excess '%s'.\n" [ArgStr (on_off excess)];
      MqttPublish excess_state_topic 1 true (on_off excess);
      Display (Z.b2z excess) excess (uint32_t (MIN_STATE_SECONDS - 0)) ].

(** Closed form of the effects of a tick, path by path (proved equal to the
    embedded callback in [effects_Tick]). *)
Definition tick_effects (s : state) : list effect :=
  let t := uint32_t (g_currentStateTime s + 1) in
  [ Display (g_currentMode s) (g_excess s)
      (uint32_t (MIN_STATE_SECONDS - g_currentStateTime s)) ] ++
  (if g_currentStateTime s mod MQTT_KEEPALIVE_INTERVAL =? 0 then
     [ SerialPrintf "Publishing mode %i.\n" [ArgInt (g_currentMode s)];
       MqttPublish mode_state_topic 1 true (String_of_int (g_currentMode s)) ]
   else []) ++
  (if t <? MIN_STATE_SECONDS then []
   else if mqtt_dead t (g_mqttLastResponseTime s) then
     if g_excess s then
       SerialPrintf
         "No MQTT response received in %u seconds, reverting to normal mode.\n"
         [ArgInt (mqttDiff t (g_mqttLastResponseTime s))]
       :: commit_effects s false
     else if t mod 30 =? 0 then
       [ SerialPrint "Paranoid pin set: ";
         SerialPrintf "Setting pins for mode %i.\n" [ArgInt (g_currentMode s)];
         DigitalWrite SG_PIN_LSB (level_of_mode (g_currentMode s)) ]
     else []
   else commit_effects s (g_excess s)).

(** ** The connectivity callbacks

    The Wi-Fi and MQTT callbacks around the controller core.  What they read
    from the collaborators ([mqttClient.connected()], [WiFi.isConnected()])
    and the JSON serialiser of the library are arguments of the callbacks. *)

Definition g_deviceModel : string := "ESP32Device".
Definition g_swVersion : string := "1.0".
Definition g_manufacturer : string := "Bud Millwood".
Definition g_deviceName : string := "SGReady".

(** [#define REMOVE_HA_DEVICE 0] *)
Definition REMOVE_HA_DEVICE : Z := 0.

Inductive timer : Type := mqttReconnectTimer | wifiReconnectTimer | countdownTimer.

(** The enumerators [WiFiEvent] names, and any other value of the type. *)
Inductive WiFiEvent_t : Type :=
| SYSTEM_EVENT_WIFI_READY
| SYSTEM_EVENT_SCAN_DONE
| SYSTEM_EVENT_STA_START
| SYSTEM_EVENT_STA_STOP
| SYSTEM_EVENT_STA_CONNECTED
| SYSTEM_EVENT_STA_DISCONNECTED
| SYSTEM_EVENT_STA_GOT_IP
| SYSTEM_EVENT_STA_LOST_IP
| SYSTEM_EVENT_AP_STA_GOT_IP6
| SYSTEM_EVENT_other (code : Z).

Inductive net_effect : Type :=
| Core (e : effect)
| SerialPrintln (text : string)
| SerialPrintlnLocalIP
| WiFiBegin
| WiFiDisconnect
| MqttConnect
| MqttSubscribe (topic : string) (qos : Z)
| xTimerStart (t : timer)
| xTimerStop (t : timer).

(** A callback: the globals it leaves and what it did. *)
Definition callback : Type := state -> state * list net_effect.

Definition net (e : net_effect) : callback := fun s => (s, [e]).

(** A call into the controller core. *)
Definition core (f : M unit) : callback :=
  fun s => (fst (exec f s), map Core (snd (exec f s))).

(** A sequence of statements. *)
Fixpoint block (cs : list callback) : callback :=
  fun s =>
    match cs with
    | [] => (s, [])
    | c :: cs' =>
        let (s1, out1) := c s in
        let (s2, out2) := block cs' s1 in
        (s2, out1 ++ out2)
    end.

(** The effects on the collaborators of the core within a log. *)
Definition core_effects (out : list net_effect) : list effect :=
  flat_map (fun e => match e with Core e' => [e'] | _ => [] end) out.

(** *** The discovery documents

    A JSON document is a tree; an object keeps its members in the order in
    which they were first assigned.  The capacity of the static document is
    not modelled. *)

#[local] Unset Elimination Schemes.
Inductive json : Type :=
| JNull
| JString (str : string)
| JObject (members : list (string * json))
| JArray (items : list json).
#[local] Set Elimination Schemes.

Fixpoint set_member (key : string) (v : json) (members : list (string * json))
  : list (string * json) :=
  match members with
  | [] => [(key, v)]
  | (k, x) :: members' =>
      if String.eqb k key then (k, v) :: members'
      else (k, x) :: set_member key v members'
  end.

(** [obj[key] = v] *)
Definition assign (key : string) (v : json) (d : json) : json :=
  match d with
  | JObject members => JObject (set_member key v members)
  | _ => JObject [(key, v)]
  end.

(** [arr.add(v)] *)
Definition add (v : json) (d : json) : json :=
  match d with
  | JArray items => JArray (items ++ [v])
  | _ => JArray [v]
  end.

(** An update through a handle to a nested member of the document. *)
Fixpoint at_path (path : list string) (f : json -> json) (d : json) : json :=
  match path with
  | [] => f d
  | key :: path' =>
      match d with
      | JObject members =>
          JObject (map (fun kv => if String.eqb (fst kv) key
                                  then (fst kv, at_path path' f (snd kv))
                                  else kv) members)
      | _ => d
      end
  end.

Fixpoint lookup (path : list string) (d : json) : option json :=
  match path with
  | [] => Some d
  | key :: path' =>
      match d with
      | JObject members =>
          match find (fun kv => String.eqb (fst kv) key) members with
          | Some kv => lookup path' (snd kv)
          | None => None
          end
      | _ => None
      end
  end.

(** The device block both documents carry (lines 225-231 and 244-250). *)
Definition describe_device (jdoc : json) : json :=
  let jdoc := assign "device" (JObject []) jdoc in   (* createNestedObject *)
  let jdoc := at_path ["device"] (assign "name" (JString g_deviceName)) jdoc in
  let jdoc := at_path ["device"] (assign "model" (JString g_deviceModel)) jdoc in
  let jdoc := at_path ["device"] (assign "sw_version" (JString g_swVersion)) jdoc in
  let jdoc := at_path ["device"] (assign "manufacturer" (JString g_manufacturer)) jdoc in
  let jdoc := at_path ["device"] (assign "identifiers" (JArray [])) jdoc in
  at_path ["device"; "identifiers"] (add (JString uniqueID)) jdoc.

(** excess switch, json configuration *)
Definition excess_config : json :=
  let jdoc := JNull in
  let jdoc := assign "name" (JString g_excessName) jdoc in
  let jdoc := assign "uniq_id" (JString (entityTopic g_excessName)) jdoc in
  let jdoc := assign "dev_cla" (JString "switch") jdoc in
  let jdoc := assign "state_topic" (JString (entityTopic g_excessName +++ "/state")) jdoc in
  let jdoc := assign "command_topic" (JString (entityTopic g_excessName +++ "/set")) jdoc in
  describe_device jdoc.

(** mode sensor, json configuration (built after [jdoc.clear()]) *)
Definition mode_config : json :=
  let jdoc := JNull in
  let jdoc := assign "name" (JString g_modeName) jdoc in
  let jdoc := assign "uniq_id" (JString "enum") jdoc in
  let jdoc := assign "state_topic" (JString (entityTopic g_modeName +++ "/state")) jdoc in
  describe_device jdoc.

(** *** The callbacks *)

Definition mqttHomeAssistantDiscovery (serializeJson : json -> string)
    (connected : bool) : callback :=
  if negb connected then
    net (SerialPrintln
           "Error: Failed to send Home Assistant Discovery. (MQTT not connected)")
  else
    let excessPayload := serializeJson excess_config in
    let modePayload := serializeJson mode_config in
    let excessPayload := if REMOVE_HA_DEVICE =? 0 then excessPayload else EmptyString in
    let modePayload := if REMOVE_HA_DEVICE =? 0 then modePayload else EmptyString in
    block
      [ net (SerialPrintln "Sending Home Assistant Discovery...");
        net (Core (MqttPublish
                     (("homeassistant/switch/" +++ entityTopic "excess") +++ "/config")
                     1 true excessPayload));
        core mqttPublishExcess;
        net (Core (MqttPublish
                     (("homeassistant/sensor/" +++ entityTopic "mode") +++ "/config")
                     1 true modePayload));
        core mqttPublishMode ].

Definition connectToWifi : callback :=
  block [ net (SerialPrintln "Connecting to Wi-Fi..."); core DrawDisplay; net WiFiBegin ].

Definition connectToMqtt : callback :=
  block [ net (SerialPrintln "Connecting to MQTT..."); core DrawDisplay; net MqttConnect ].

Definition WiFiEvent (ev : WiFiEvent_t) : callback :=
  match ev with
  | SYSTEM_EVENT_STA_GOT_IP =>
      block [ net (Core (SerialPrint "WiFi connected: "));
              net SerialPrintlnLocalIP;
              connectToMqtt ]
  | SYSTEM_EVENT_STA_DISCONNECTED =>
      block [ net (SerialPrintln "WiFi disconnected");
              net WiFiDisconnect;
              net (xTimerStop mqttReconnectTimer);
              net (xTimerStart wifiReconnectTimer) ]
  | SYSTEM_EVENT_WIFI_READY
  | SYSTEM_EVENT_SCAN_DONE
  | SYSTEM_EVENT_STA_START
  | SYSTEM_EVENT_STA_STOP
  | SYSTEM_EVENT_AP_STA_GOT_IP6
  | SYSTEM_EVENT_STA_CONNECTED => block []
  | SYSTEM_EVENT_STA_LOST_IP => net (SerialPrintln "Lost WiFi IP address.")
  | SYSTEM_EVENT_other code =>
      net (Core (SerialPrintf "Unknown WiFi event %d\n" [ArgInt code]))
  end.

Definition onMqttConnect (serializeJson : json -> string)
    (sessionPresent connected : bool) : callback :=
  block
    [ net (SerialPrintln "MQTT connected.");
      net (Core (SerialPrint "Session present: "));
      net (SerialPrintln (String_of_int (Z.b2z sessionPresent)));
      mqttHomeAssistantDiscovery serializeJson connected;
      net (MqttSubscribe (entityTopic g_excessName +++ "/set") 1);
      core DrawDisplay ].

Definition onMqttDisconnect (wifiConnected : bool) : callback :=
  block
    [ net (SerialPrintln "MQTT disconnected.");
      if wifiConnected then net (xTimerStart mqttReconnectTimer) else block [] ].

Definition onMqttSubscribe (packetId qos : Z) : callback :=
  block
    [ net (SerialPrintln "Subscribe acknowledged.");
      net (Core (SerialPrint "  packetId: "));
      net (SerialPrintln (String_of_int packetId));
      net (Core (SerialPrint "  qos: "));
      net (SerialPrintln (String_of_int qos)) ].

Definition onMqttUnsubscribe (packetId : Z) : callback :=
  block
    [ net (SerialPrintln "Unsubscribe acknowledged.");
      net (Core (SerialPrint "  packetId: "));
      net (SerialPrintln (String_of_int packetId)) ].

(** *** Traces of the whole firmware *)

Inductive sys_event : Type :=
| Controller (ev : event)
| WiFi (ev : WiFiEvent_t)
| MqttConnected (sessionPresent connected : bool)
| MqttDisconnected (wifiConnected : bool)
| MqttSubscribed (packetId qos : Z)
| MqttUnsubscribed (packetId : Z)
| MqttReconnectTimerExpired      (* created in [setup] with [connectToMqtt] *)
| WifiReconnectTimerExpired.     (* created in [setup] with [connectToWifi] *)

Definition sys_handler (serializeJson : json -> string) (ev : sys_event) : callback :=
  match ev with
  | Controller ev' => core (handler ev')
  | WiFi ev' => WiFiEvent ev'
  | MqttConnected sessionPresent connected =>
      onMqttConnect serializeJson sessionPresent connected
  | MqttDisconnected wifiConnected => onMqttDisconnect wifiConnected
  | MqttSubscribed packetId qos => onMqttSubscribe packetId qos
  | MqttUnsubscribed packetId => onMqttUnsubscribe packetId
  | MqttReconnectTimerExpired => connectToMqtt
  | WifiReconnectTimerExpired => connectToWifi
  end.

Fixpoint run_sys (serializeJson : json -> string) (evs : list sys_event) (s : state)
  : state * list net_effect :=
  match evs with
  | [] => (s, [])
  | ev :: evs' =>
      let (s1, out1) := sys_handler serializeJson ev s in
      let (s2, out2) := run_sys serializeJson evs' s1 in
      (s2, out1 ++ out2)
  end.

(** The controller events of a trace of the firmware. *)
Definition controller_events (evs : list sys_event) : list event :=
  flat_map (fun ev => match ev with Controller ev' => [ev'] | _ => [] end) evs.

Definition is_publish (e : effect) : bool :=
  match e with
  | MqttPublish _ _ _ _ => true
  | _ => false
  end.
(** * Proofs *)

Lemma step_Tick (s : state) : step Tick s = tick_state s.
Proof.
  destruct s as [excess mode last t0].
  unfold tick_state. unfold_fn.
  cbv [g_currentStateTime g_excess g_currentMode g_mqttLastResponseTime
       set_currentStateTime set_excess set_currentMode].
  destruct (t0 mod MQTT_KEEPALIVE_INTERVAL =? 0);
    destruct (uint32_t (t0 + 1) <? MIN_STATE_SECONDS); try reflexivity;
    destruct (mqtt_dead (uint32_t (t0 + 1)) last); try reflexivity.
  all: destruct excess; cbv [Z.b2z].
  all: try (destruct (uint32_t (t0 + 1) mod 30 =? 0); reflexivity).
  all: try (destruct (mode =? 0); reflexivity).
  all: try (destruct (mode =? 1); reflexivity).
Qed.

Lemma step_Message (topic payload : string) (s : state) :
  step (Message topic payload) s =
  set_excess (String.eqb topic (entityTopic g_excessName +++ "/set")
              && String.eqb payload "ON") s.
Proof.
  destruct s as [excess mode last t0]. unfold_fn.
  destruct (String.eqb topic _); [destruct (String.eqb payload "ON") eqn:E|];
    cbn; try reflexivity.
  destruct (String.eqb payload "OFF"); reflexivity.
Qed.

Lemma step_PublishAck (packetId : Z) (s : state) :
  step (PublishAck packetId) s = set_mqttLastResponseTime (g_currentStateTime s) s.
Proof. reflexivity. Qed.

Lemma effects_Message (topic payload : string) (s : state) :
  effects (Message topic payload) s =
  diagnostics topic payload ++ echo (step (Message topic payload) s).
Proof.
  rewrite step_Message. destruct s as [excess mode last t0].
  unfold diagnostics, echo. unfold_fn.
  destruct (String.eqb topic _); [destruct (String.eqb payload "ON") eqn:E|];
    cbn; try reflexivity.
  destruct (String.eqb payload "OFF"); reflexivity.
Qed.

(** ** The liveness test *)

Lemma constants :
  MIN_STATE_SECONDS = 600 /\ MQTT_KEEPALIVE_INTERVAL = 60 /\ MQTT_DEAD_TIME = 180.
Proof. repeat split; reflexivity. Qed.

Lemma mqttDiff_elapsed (now last : Z) :
  0 <= now < 2 ^ 32 -> 0 <= last < 2 ^ 32 ->
  mqttDiff now last = if last <=? now then now - last else now - last + 2 ^ 32.
Proof.
  intros Hn Hl. unfold mqttDiff, uint32_t.
  destruct (Z.leb_spec last now).
  - apply Z.mod_small. lia.
  - symmetry. apply (Z.mod_unique _ _ (-1)); lia.
Qed.

Lemma tick_excess (s : state) :
  g_excess (step Tick s) =
  g_excess s &&
  ((uint32_t (g_currentStateTime s + 1) <? MIN_STATE_SECONDS)
   || negb (mqtt_dead (uint32_t (g_currentStateTime s + 1)) (g_mqttLastResponseTime s))).
Proof.
  rewrite step_Tick. unfold tick_state. destruct s as [excess mode last t0]; cbn -[uint32_t mqtt_dead Z.ltb MIN_STATE_SECONDS].
  destruct (uint32_t (t0 + 1) <? MIN_STATE_SECONDS); cbn -[uint32_t mqtt_dead].
  - now rewrite andb_true_r.
  - destruct (mqtt_dead _ _); destruct excess; cbn; try reflexivity;
      destruct (mode =? _); reflexivity.
Qed.

(** C8. For all [uint32_t] values of the two clocks, the deadness verdict of
    the countdown callback is the test [(now - last) mod 2^32 > 180]: the
    thresholds are 600, 600/10 = 60 and 3 * 60 = 180; the difference is the
    number of ticks from [last] forward to [now] also when [now] has wrapped
    below [last] (no comparison of absolute clock values); and this verdict
    is what lets a tick past the dwell gate force the desired mode to false. *)
Theorem mqtt_dead_unsigned_difference (now last : Z) (s : state) :
  0 <= now < 2 ^ 32 -> 0 <= last < 2 ^ 32 ->
  MIN_STATE_SECONDS = 600 /\
  MQTT_KEEPALIVE_INTERVAL = MIN_STATE_SECONDS / 10 /\ MQTT_KEEPALIVE_INTERVAL = 60 /\
  MQTT_DEAD_TIME = 3 * MQTT_KEEPALIVE_INTERVAL /\ MQTT_DEAD_TIME = 180 /\
  (mqtt_dead now last = true <-> (now - last) mod 2 ^ 32 > MQTT_DEAD_TIME) /\
  mqtt_dead now last =
    (180 <? (if last <=? now then now - last else now - last + 2 ^ 32)) /\
  g_excess (step Tick s) =
    g_excess s &&
    ((uint32_t (g_currentStateTime s + 1) <? MIN_STATE_SECONDS)
     || negb (mqtt_dead (uint32_t (g_currentStateTime s + 1))
                        (g_mqttLastResponseTime s))).
Proof.
  intros Hn Hl. repeat split; try reflexivity.
  - unfold mqtt_dead, mqttDiff, uint32_t. rewrite Z.ltb_lt. lia.
  - unfold mqtt_dead, mqttDiff, uint32_t. rewrite Z.ltb_lt. lia.
  - unfold mqtt_dead. rewrite mqttDiff_elapsed by assumption. reflexivity.
  - apply tick_excess.
Qed.

(** The clock has wrapped to 5 while the last acknowledgement was recorded
    205 ticks earlier, at 2^32 - 200: the broker is judged dead. *)
Lemma mqtt_dead_unsigned_difference_witness :
  mqtt_dead 5 (2 ^ 32 - 200) = true <-> (5 - (2 ^ 32 - 200)) mod 2 ^ 32 > MQTT_DEAD_TIME.
Proof.
  apply (mqtt_dead_unsigned_difference 5 (2 ^ 32 - 200) initial); cbv; split; congruence.
Defined.

(** ** The inbound message handler *)

(** C3, as stated, fails: a message for another topic clears the desired
    mode. *)
Lemma unknown_topic_changes_state :
  ~ (forall (s : state) (topic payload : string),
        topic <> command_topic -> step (Message topic payload) s = s).
Proof.
  intros H.
  specialize (H (mkState true 1 0 0) "sgready_board_Mode/state" "1").
  discriminate H. intros E. discriminate E.
Qed.

(** C3, amended. For every inbound message whose topic is not the command
    address, the handler sets the desired mode to false and leaves the
    committed mode and both clocks as they were; it makes no pin write and no
    mode publish. *)
Theorem unknown_topic_clears_excess_only (s : state) (topic payload : string) :
  topic <> command_topic ->
  g_excess (step (Message topic payload) s) = false /\
  g_currentMode (step (Message topic payload) s) = g_currentMode s /\
  g_currentStateTime (step (Message topic payload) s) = g_currentStateTime s /\
  g_mqttLastResponseTime (step (Message topic payload) s) = g_mqttLastResponseTime s /\
  effects (Message topic payload) s =
    [ SerialPrintf "Error: MQTT message for unknown topic '%s'." [ArgStr topic];
      SerialPrintf "Publishing excess '%s'.\n" [ArgStr "OFF"];
      MqttPublish excess_state_topic 1 true "OFF";
      Display (g_currentMode s) false
        (uint32_t (MIN_STATE_SECONDS - g_currentStateTime s)) ].
Proof.
  intros Hne. apply String.eqb_neq in Hne. unfold command_topic in Hne.
  rewrite effects_Message, step_Message. unfold diagnostics. rewrite Hne.
  repeat split.
Qed.

Lemma unknown_topic_clears_excess_only_witness :
  g_excess (step (Message "sgready_board_Mode/state" "ON") (mkState true 1 40 70))
  = false.
Proof.
  apply (unknown_topic_clears_excess_only (mkState true 1 40 70)
           "sgready_board_Mode/state" "ON").
  intros E. discriminate E.
Defined.

(** C7. A message on the command address whose payload is neither "ON" nor
    "OFF" sets the desired mode to false, logs the invalid-payload
    diagnostic, and commits nothing: the committed mode and both clocks are
    unchanged and the only other effects are the echo of "OFF" and the
    display refresh.  The handler is a total function, so it always
    returns. *)
Theorem invalid_payload_deactivates (s : state) (payload : string) :
  payload <> "ON" -> payload <> "OFF" ->
  step (Message command_topic payload) s = set_excess false s /\
  g_excess (step (Message command_topic payload) s) = false /\
  g_currentMode (step (Message command_topic payload) s) = g_currentMode s /\
  g_currentStateTime (step (Message command_topic payload) s) = g_currentStateTime s /\
  g_mqttLastResponseTime (step (Message command_topic payload) s)
    = g_mqttLastResponseTime s /\
  effects (Message command_topic payload) s =
    [ SerialPrintf "Error: Invalid MQTT payload '%s'." [ArgStr payload];
      SerialPrintf "Publishing excess '%s'.\n" [ArgStr "OFF"];
      MqttPublish excess_state_topic 1 true "OFF";
      Display (g_currentMode s) false
        (uint32_t (MIN_STATE_SECONDS - g_currentStateTime s)) ].
Proof.
  intros Hon Hoff. apply String.eqb_neq in Hon, Hoff.
  rewrite effects_Message, step_Message. unfold diagnostics.
  change (entityTopic g_excessName +++ "/set") with command_topic.
  rewrite String.eqb_refl, Hon, Hoff. repeat split.
Qed.

Lemma invalid_payload_deactivates_witness :
  step (Message command_topic "MAYBE") (mkState true 1 40 70)
  = set_excess false (mkState true 1 40 70).
Proof.
  apply (invalid_payload_deactivates (mkState true 1 40 70) "MAYBE");
    intros E; discriminate E.
Defined.

(** C9. Delivering the same valid command twice leaves the globals as
    delivering it once; a delivery changes only the desired mode, never the
    dwell clock, the committed mode or the liveness clock; it writes no pin
    and publishes no mode; and each delivery repeats the same effects: the
    echo of the desired mode (with its console line) and the display
    refresh. *)
Theorem valid_command_idempotent (s : state) (v : bool) :
  step (Message command_topic (on_off v)) (step (Message command_topic (on_off v)) s)
    = step (Message command_topic (on_off v)) s /\
  step (Message command_topic (on_off v)) s = set_excess v s /\
  g_currentStateTime (step (Message command_topic (on_off v)) s) = g_currentStateTime s /\
  g_currentMode (step (Message command_topic (on_off v)) s) = g_currentMode s /\
  g_mqttLastResponseTime (step (Message command_topic (on_off v)) s)
    = g_mqttLastResponseTime s /\
  effects (Message command_topic (on_off v)) s =
    [ SerialPrintf "Publishing excess '%s'.\n" [ArgStr (on_off v)];
      MqttPublish excess_state_topic 1 true (on_off v);
      Display (g_currentMode s) v
        (uint32_t (MIN_STATE_SECONDS - g_currentStateTime s)) ] /\
  effects (Message command_topic (on_off v)) (step (Message command_topic (on_off v)) s)
    = effects (Message command_topic (on_off v)) s /\
  filter is_pin_write (effects (Message command_topic (on_off v)) s) = [] /\
  mode_publishes (effects (Message command_topic (on_off v)) s) = 0%nat.
Proof.
  rewrite !effects_Message, !step_Message.
  change (entityTopic g_excessName +++ "/set") with command_topic.
  destruct v, s as [excess mode last t0]; repeat split.
Qed.

(** C10. Every invocation of the message handler, whatever the topic and
    the payload, publishes the desired mode it leaves behind on the switch
    state topic "sgready_board_Excess/state", retained, with QoS 1: the
    token "ON" when the desired mode is true and the token "OFF" when it is
    false; only the display refresh follows.  The desired mode is true
    exactly for "ON" on the command address "sgready_board_Excess/set", so
    that message announces "ON" and every other one, a message for an
    unknown topic included, announces "OFF". *)
Theorem message_always_echoes (s : state) (topic payload : string) :
  exists diag : list effect,
    effects (Message topic payload) s =
      diag ++
      [ SerialPrintf "Publishing excess '%s'.\n"
          [ArgStr (if g_excess (step (Message topic payload) s) then "ON" else "OFF")];
        MqttPublish "sgready_board_Excess/state" 1 true
          (if g_excess (step (Message topic payload) s) then "ON" else "OFF");
        Display (g_currentMode s) (g_excess (step (Message topic payload) s))
          (uint32_t (MIN_STATE_SECONDS - g_currentStateTime s)) ] /\
    filter (fun e => match e with MqttPublish _ _ _ _ => true | _ => false end) diag = [] /\
    g_excess (step (Message topic payload) s)
      = String.eqb topic "sgready_board_Excess/set" && String.eqb payload "ON" /\
    In (MqttPublish "sgready_board_Excess/state" 1 true
          (if String.eqb topic "sgready_board_Excess/set" && String.eqb payload "ON"
           then "ON" else "OFF"))
       (effects (Message topic payload) s).
Proof.
  exists (diagnostics topic payload).
  rewrite effects_Message, step_Message.
  split; [reflexivity|]. split; [|split; [reflexivity|]].
  - unfold diagnostics. destruct (String.eqb topic _); [|reflexivity].
    destruct (_ || _); reflexivity.
  - apply in_or_app. right. right. left. reflexivity.
Qed.

(** ** The dwell gate *)

Lemma uint32_t_range (z : Z) : 0 <= uint32_t z < 2 ^ 32.
Proof. unfold uint32_t. apply Z.mod_pos_bound. lia. Qed.

(** A tick either keeps the committed mode and advances the dwell clock, or
    passes the dwell gate, changes the mode and restarts the clock. *)
Lemma tick_cases (s : state) :
  (mode_changes Tick s = false /\
   g_currentStateTime (step Tick s) = uint32_t (g_currentStateTime s + 1) /\
   g_mqttLastResponseTime (step Tick s) = g_mqttLastResponseTime s)
  \/
  (mode_changes Tick s = true /\
   MIN_STATE_SECONDS <= uint32_t (g_currentStateTime s + 1) /\
   g_currentStateTime (step Tick s) = 0 /\
   g_mqttLastResponseTime (step Tick s) = g_mqttLastResponseTime s).
Proof.
  assert (Hneq : forall a b : Z, (a =? b) = false -> negb (b =? a) = true).
  { intros a b E. now rewrite Z.eqb_sym, E. }
  unfold mode_changes. rewrite step_Tick. unfold tick_state.
  destruct s as [excess mode last t0].
  cbn [g_currentStateTime g_currentMode g_excess g_mqttLastResponseTime
       set_currentStateTime].
  destruct (Z.ltb_spec (uint32_t (t0 + 1)) MIN_STATE_SECONDS) as [Hlt|Hge].
  { left. rewrite Z.eqb_refl. auto. }
  destruct (mqtt_dead _ _); destruct excess; cbn [Z.b2z].
  - destruct (mode =? 0) eqn:Hm; cbn [g_currentStateTime g_currentMode g_mqttLastResponseTime].
    + left. rewrite Z.eqb_refl. auto.
    + right. auto.
  - left. rewrite Z.eqb_refl. auto.
  - destruct (mode =? 1) eqn:Hm; cbn [g_currentStateTime g_currentMode g_mqttLastResponseTime].
    + left. rewrite Z.eqb_refl. auto.
    + right. auto.
  - destruct (mode =? 0) eqn:Hm; cbn [g_currentStateTime g_currentMode g_mqttLastResponseTime].
    + left. rewrite Z.eqb_refl. auto.
    + right. auto.
Qed.

Lemma message_keeps_mode (topic payload : string) (s : state) :
  mode_changes (Message topic payload) s = false.
Proof. unfold mode_changes. rewrite step_Message. cbn. now rewrite Z.eqb_refl. Qed.

Lemma ack_keeps_mode (packetId : Z) (s : state) :
  mode_changes (PublishAck packetId) s = false.
Proof. unfold mode_changes. rewrite step_PublishAck. cbn. now rewrite Z.eqb_refl. Qed.

Lemma spaced_weaken (d lo lo' : Z) (l : list nat) :
  lo' <= lo -> spaced d lo l -> spaced d lo' l.
Proof. destruct l; cbn; intuition lia. Qed.

Lemma spaced_lower (d lo : Z) (l : list nat) :
  0 <= d -> spaced d lo l -> Forall (fun t => lo <= Z.of_nat t) l.
Proof.
  intros Hd. revert lo. induction l as [|t l IH]; intros lo H; constructor.
  - apply H.
  - destruct H as [Ht Hl]. apply IH in Hl.
    eapply Forall_impl; [|exact Hl]. cbn. intros; lia.
Qed.

Lemma spaced_pair (d lo : Z) (l before between after : list nat) (i j : nat) :
  0 <= d -> spaced d lo l ->
  l = before ++ i :: between ++ j :: after ->
  Z.of_nat i + d <= Z.of_nat j.
Proof.
  intros Hd. revert lo l. induction before as [|b before IH]; intros lo l H ->.
  - destruct H as [_ H]. apply spaced_lower in H; [|assumption].
    rewrite Forall_forall in H. apply H. apply in_or_app. right. now left.
  - destruct H as [_ H]. eapply IH; [exact H | reflexivity].
Qed.

(** With [d] ticks (modulo 2^32) on the dwell clock, no commit comes before
    the clock has reached the threshold, and commits keep their distance. *)
Lemma commit_ticks_spaced (evs : list event) :
  forall (s : state) (now : nat) (d : Z),
    0 <= d -> uint32_t (g_currentStateTime s) = uint32_t d ->
    spaced MIN_STATE_SECONDS (Z.of_nat now + MIN_STATE_SECONDS - d - 1)
      (commit_ticks evs s now).
Proof.
  induction evs as [|ev evs IH]; intros s now d Hd Hclock; [exact I|].
  destruct ev as [|topic payload|packetId]; cbn [commit_ticks].
  - destruct (tick_cases s) as [(Hm & Ht & _)|(Hm & Hge & Ht & _)]; rewrite Hm; cbn [app].
    + replace (Z.of_nat now + MIN_STATE_SECONDS - d - 1)
        with (Z.of_nat (S now) + MIN_STATE_SECONDS - (d + 1) - 1) by lia.
      apply IH; [lia|]. rewrite Ht. unfold uint32_t in *.
      rewrite Z.mod_mod by lia.
      rewrite <- Zplus_mod_idemp_l, Hclock, Zplus_mod_idemp_l. reflexivity.
    + assert (Hd1 : MIN_STATE_SECONDS <= d + 1).
      { unfold uint32_t in *.
        rewrite <- Zplus_mod_idemp_l, Hclock, Zplus_mod_idemp_l in Hge.
        pose proof (Z.mod_le (d + 1) (2 ^ 32)). lia. }
      split; [lia|].
      replace (Z.of_nat now + MIN_STATE_SECONDS)
        with (Z.of_nat (S now) + MIN_STATE_SECONDS - 0 - 1) by lia.
      apply IH; [lia|]. now rewrite Ht.
  - apply IH; [assumption|]. now rewrite step_Message.
  - apply IH; [assumption|]. now rewrite step_PublishAck.
Qed.

(** C1. Along every trace of ticks, messages and acknowledgements, from
    every state: whenever the committed mode changes at tick [i] and again at
    a later tick [j], at least 600 ticks lie between the two ([i + 600 <= j]);
    and only ticks change the committed mode. *)
Theorem dwell_invariant (evs : list event) (s : state)
    (before between after : list nat) (i j : nat) :
  commit_ticks evs s 0 = before ++ i :: between ++ j :: after ->
  (i + Z.to_nat MIN_STATE_SECONDS <= j)%nat /\
  (forall s' topic payload, mode_changes (Message topic payload) s' = false) /\
  (forall s' packetId, mode_changes (PublishAck packetId) s' = false).
Proof.
  intros H. split; [|split; intros; [apply message_keeps_mode | apply ack_keeps_mode]].
  pose proof (commit_ticks_spaced evs s 0 (uint32_t (g_currentStateTime s))) as Hs.
  assert (Hsp : spaced MIN_STATE_SECONDS
                  (Z.of_nat 0 + MIN_STATE_SECONDS - uint32_t (g_currentStateTime s) - 1)
                  (commit_ticks evs s 0)).
  { apply Hs; [apply uint32_t_range|]. unfold uint32_t. now rewrite Z.mod_mod by lia. }
  assert (Hd : 0 <= MIN_STATE_SECONDS) by (unfold MIN_STATE_SECONDS; lia).
  pose proof (spaced_pair _ _ _ _ _ _ _ _ Hd Hsp H) as Hij.
  change (Z.to_nat MIN_STATE_SECONDS) with 600%nat.
  unfold MIN_STATE_SECONDS in Hij. lia.
Qed.

Lemma dwell_invariant_witness :
  commit_ticks two_commits initial 0 = [599; 1199]%nat /\
  (599 + Z.to_nat MIN_STATE_SECONDS <= 1199)%nat.
Proof.
  split; [vm_compute; reflexivity|].
  apply (dwell_invariant two_commits initial [] [] [] 599 1199).
  vm_compute; reflexivity.
Defined.

(** ** Commits and the liveness clock *)

Lemma uint32_t_succ (d : Z) : uint32_t (uint32_t d + 1) = uint32_t (d + 1).
Proof. unfold uint32_t. apply Zplus_mod_idemp_l. Qed.

Lemma count_ticks_cons (ev : event) (evs : list event) :
  count_ticks (ev :: evs) =
  ((match ev with Tick => 1 | _ => 0 end) + count_ticks evs)%nat.
Proof. destruct ev; reflexivity. Qed.

Lemma clocks_track_run (evs : list event) :
  forall (s : state) (d : Z) (a : nat),
    clocks_track s d (Z.of_nat a) ->
    exists d' : Z,
      d' <= d + Z.of_nat (count_ticks evs) /\
      clocks_track (run evs s) d' (Z.of_nat (quiet_ticks_from a evs)).
Proof.
  induction evs as [|ev evs IH]; intros s d a Htr.
  { exists d. cbn. split; [lia|assumption]. }
  rewrite count_ticks_cons.
  destruct Htr as (Ha & Hd & Hclock & Hlast).
  destruct ev as [|topic payload|packetId]; cbn [run quiet_ticks_from].
  - destruct (tick_cases s) as [(_ & Ht & Hl)|(_ & _ & Ht & Hl)].
    + destruct (IH (step Tick s) (d + 1) (S a)) as (d' & Hle & Htr').
      { repeat split; try lia.
        - now rewrite Ht, Hclock, uint32_t_succ.
        - intros Hlt. rewrite Hl, Hlast by lia. f_equal. lia. }
      exists d'. split; [lia|assumption].
    + destruct (IH (step Tick s) 0 (S a)) as (d' & Hle & Htr').
      { repeat split; try lia. now rewrite Ht. }
      exists d'. split; [lia|assumption].
  - destruct (IH (step (Message topic payload) s) d a) as (d' & Hle & Htr').
    { rewrite step_Message. repeat split; assumption. }
    exists d'. split; [lia|assumption].
  - destruct (IH (step (PublishAck packetId) s) d 0%nat) as (d' & Hle & Htr').
    { rewrite step_PublishAck. repeat split; try lia; try assumption.
      intros _. cbn. rewrite Hclock. f_equal. lia. }
    exists d'. split; [lia|assumption].
Qed.

(** What a dead verdict does: a desired excess is withdrawn; with the desired
    mode already normal the tick only advances the dwell clock. *)
Lemma judged_dead_tick (s : state) :
  judged_dead s = true ->
  g_excess (step Tick s) = false /\
  (g_excess s = false ->
   step Tick s = set_currentStateTime (uint32_t (g_currentStateTime s + 1)) s).
Proof.
  unfold judged_dead. intros H. apply andb_true_iff in H as [Hgate Hdead].
  apply negb_true_iff in Hgate. split.
  - rewrite tick_excess, Hgate, Hdead. apply andb_false_r.
  - intros He. rewrite step_Tick. unfold tick_state. now rewrite Hgate, Hdead, He.
Qed.

(** A dead verdict is only reached with the dwell clock past the threshold
    and more than [MQTT_DEAD_TIME] ticks after the last acknowledgement. *)
Lemma judged_dead_tracked (s : state) (d a : Z) :
  clocks_track s d a -> judged_dead s = true ->
  MIN_STATE_SECONDS <= d + 1 /\ MQTT_DEAD_TIME < a + 1.
Proof.
  intros (Ha & Hd & Hclock & Hlast) Hdead.
  unfold judged_dead in Hdead. apply andb_true_iff in Hdead as [Hgate Hdead].
  apply negb_true_iff, Z.ltb_ge in Hgate.
  rewrite Hclock, uint32_t_succ in Hgate, Hdead.
  assert (Hge : MIN_STATE_SECONDS <= d + 1).
  { unfold uint32_t in Hgate. pose proof (Z.mod_le (d + 1) (2 ^ 32)). lia. }
  split; [assumption|].
  destruct (Z_lt_le_dec MQTT_DEAD_TIME (a + 1)) as [|Hle]; [assumption|exfalso].
  assert (Hms : MIN_STATE_SECONDS = 600) by reflexivity.
  assert (Hdt : MQTT_DEAD_TIME = 180) by reflexivity.
  rewrite Hlast in Hdead by lia.
  unfold mqtt_dead, mqttDiff, uint32_t in Hdead. apply Z.ltb_lt in Hdead.
  rewrite Zminus_mod_idemp_l, Zminus_mod_idemp_r in Hdead.
  replace (d + 1 - (d - a)) with (a + 1) in Hdead by lia.
  rewrite Z.mod_small in Hdead by lia. lia.
Qed.

(** C4. Whenever a tick changes the committed mode, the dwell clock reads 0
    right after it.  The commit does not itself write the liveness clock;
    the dwell gate and the unsigned difference keep the stale value
    harmless: along every continuation of the trace, a tick judges the
    broker dead only when at least 600 ticks have passed since the commit
    and more than 180 ticks have passed without an acknowledgement, so a
    commit never makes the broker appear dead at once. *)
Theorem reset_on_commit (s : state) :
  mode_changes Tick s = true ->
  g_currentStateTime (step Tick s) = 0 /\
  forall evs : list event,
    judged_dead (run evs (step Tick s)) = true ->
    MIN_STATE_SECONDS <= Z.of_nat (count_ticks evs) + 1 /\
    MQTT_DEAD_TIME < Z.of_nat (quiet_ticks evs) + 1.
Proof.
  intros Hc.
  destruct (tick_cases s) as [(Hm & _)|(_ & _ & Ht & _)]; [congruence|].
  split; [assumption|]. intros evs Hdead.
  destruct (clocks_track_run evs (step Tick s) 0 0%nat) as (d' & Hle & Htr).
  { repeat split; try lia. now rewrite Ht. }
  destruct (judged_dead_tracked _ _ _ Htr Hdead) as [H1 H2].
  split; [lia|exact H2].
Qed.

(** A commit at dwell clock 1001 leaves the liveness clock at 1000; the next
    liveness test, 600 silent ticks later, computes 600 - 1000 modulo 2^32
    and judges the broker dead. *)
Lemma reset_on_commit_witness :
  mode_changes Tick (mkState true 0 1000 1000) = true /\
  judged_dead (run (ticks 599) (step Tick (mkState true 0 1000 1000))) = true /\
  g_currentStateTime (step Tick (mkState true 0 1000 1000)) = 0 /\
  MQTT_DEAD_TIME < Z.of_nat (quiet_ticks (ticks 599)) + 1.
Proof.
  assert (Hc : mode_changes Tick (mkState true 0 1000 1000) = true)
    by (vm_compute; reflexivity).
  assert (Hd : judged_dead (run (ticks 599) (step Tick (mkState true 0 1000 1000))) = true)
    by (vm_compute; reflexivity).
  destruct (reset_on_commit (mkState true 0 1000 1000) Hc) as [H0 Hnext].
  destruct (Hnext (ticks 599) Hd) as [_ Hq].
  exact (conj Hc (conj Hd (conj H0 Hq))).
Defined.

(** ** Silence of the broker *)

Lemma run_app (evs1 evs2 : list event) (s : state) :
  run (evs1 ++ evs2) s = run evs2 (run evs1 s).
Proof. revert s. induction evs1 as [|ev evs1 IH]; intros s; [reflexivity|apply IH]. Qed.

Lemma ticks_add (n m : nat) : ticks (n + m) = ticks n ++ ticks m.
Proof. apply repeat_app. Qed.

(** Below the dwell threshold a tick only advances the dwell clock. *)
Lemma ticks_below_threshold (k : nat) :
  forall (excess : bool) (mode last c : Z),
    0 <= c -> c + Z.of_nat k < MIN_STATE_SECONDS ->
    run (ticks k) (mkState excess mode last c) = mkState excess mode last (c + Z.of_nat k).
Proof.
  assert (Hms : MIN_STATE_SECONDS = 600) by reflexivity.
  induction k as [|k IH]; intros excess mode last c Hc Hk.
  { cbn. f_equal. lia. }
  cbn [ticks repeat run]. rewrite step_Tick. unfold tick_state.
  cbn [g_currentStateTime set_currentStateTime g_excess g_currentMode g_mqttLastResponseTime].
  assert (Hu : uint32_t (c + 1) = c + 1) by (apply Z.mod_small; lia).
  rewrite Hu. destruct (Z.ltb_spec (c + 1) MIN_STATE_SECONDS); [|lia].
  fold (ticks k). unfold set_currentStateTime.
  cbn [g_excess g_currentMode g_mqttLastResponseTime].
  rewrite IH by lia. f_equal. lia.
Qed.

(** Once both the desired and the committed mode are normal, ticks keep
    them so. *)
Lemma ticks_stay_normal (n : nat) :
  forall s : state,
    g_excess s = false -> g_currentMode s = 0 ->
    g_excess (run (ticks n) s) = false /\ g_currentMode (run (ticks n) s) = 0.
Proof.
  induction n as [|n IH]; intros s He Hm; [auto|].
  cbn [ticks repeat run]. apply IH; rewrite step_Tick; unfold tick_state;
    destruct s as [excess mode last c]; cbn in He, Hm; subst;
    cbn [g_currentStateTime set_currentStateTime g_excess g_currentMode
         g_mqttLastResponseTime Z.b2z];
    destruct (_ <? _); try reflexivity; destruct (mqtt_dead _ _); reflexivity.
Qed.

(** C5, as stated, fails: when the dwell clock reads 230 the difference to
    the last acknowledgement is 180, which is not above the threshold, and
    the desired mode is still true after that tick and after the next. *)
Lemma excess_not_reverted_at_230 :
  g_currentStateTime (run (ticks 180) excess_acked_at_50) = 230 /\
  g_excess (run (ticks 180) excess_acked_at_50) = true /\
  mqtt_dead 230 50 = false /\
  g_currentStateTime (run (ticks 181) excess_acked_at_50) = 231 /\
  mqtt_dead 231 50 = true /\
  g_excess (run (ticks 181) excess_acked_at_50) = true.
Proof. vm_compute. repeat split. Qed.

(** C5, amended. From committed excess, desired excess and the last
    acknowledgement at dwell clock 50, ticking with no further
    acknowledgement: while the dwell clock is below 600 (the first 549
    ticks) nothing but the dwell clock changes, the desired mode stays
    true (the difference to the last acknowledgement is 180 at dwell clock
    230 and first exceeds the threshold at 231, with no effect); the tick that brings the dwell clock to 600 finds a difference of
    550, forces the desired mode to false and in the same tick commits
    normal mode with the dwell clock back at 0; both modes stay normal from
    then on. *)
Theorem failsafe_scenario (k : nat) :
  (k < 550)%nat ->
  run (ticks k) excess_acked_at_50 = mkState true 1 50 (50 + Z.of_nat k) /\
  run (ticks 550) excess_acked_at_50 = mkState false 0 50 0 /\
  effects Tick (run (ticks 549) excess_acked_at_50) =
    [ Display 1 true 1;
      SerialPrintf "No MQTT response received in %u seconds, reverting to normal mode.\n"
        [ArgInt 550];
      SerialPrintf "Setting pins for mode %i.\n" [ArgInt 0];
      DigitalWrite SG_PIN_LSB LOW;
      SerialPrintf "Publishing mode %i.\n" [ArgInt 0];
      MqttPublish mode_state_topic 1 true "0";
      SerialPrintf "Publishing excess '%s'.\n" [ArgStr "OFF"];
      MqttPublish excess_state_topic 1 true "OFF";
      Display 0 false 600 ] /\
  (mqtt_dead 230 50 = false /\ mqtt_dead 231 50 = true) /\
  forall n : nat,
    g_excess (run (ticks (550 + n)) excess_acked_at_50) = false /\
    g_currentMode (run (ticks (550 + n)) excess_acked_at_50) = 0.
Proof.
  intros Hk. split; [|split; [|split; [|split]]].
  - apply ticks_below_threshold; unfold MIN_STATE_SECONDS; lia.
  - vm_compute. reflexivity.
  - vm_compute. reflexivity.
  - split; vm_compute; reflexivity.
  - intros n. rewrite ticks_add, run_app.
    replace (run (ticks 550) excess_acked_at_50) with (mkState false 0 50 0)
      by (vm_compute; reflexivity).
    apply ticks_stay_normal; reflexivity.
Qed.

Lemma failsafe_scenario_witness :
  (180 < 550)%nat /\
  run (ticks 180) excess_acked_at_50 = mkState true 1 50 (50 + Z.of_nat 180).
Proof.
  assert (H : (180 < 550)%nat) by lia.
  split; [exact H|]. apply (failsafe_scenario 180 H).
Defined.

(** With the desired mode already normal, the committed mode at excess and
    the liveness clock at 50, a tick keeps all three: past the dwell gate
    the broker is judged dead and the callback returns before the commit. *)
Lemma tick_keeps_stale_excess (s : state) :
  g_excess s = false -> g_currentMode s = 1 -> g_mqttLastResponseTime s = 50 ->
  g_excess (step Tick s) = false /\ g_currentMode (step Tick s) = 1 /\
  g_mqttLastResponseTime (step Tick s) = 50.
Proof.
  destruct s as [excess mode last c]. cbn. intros -> -> ->.
  rewrite step_Tick. unfold tick_state.
  cbn [g_currentStateTime set_currentStateTime g_excess g_currentMode
       g_mqttLastResponseTime Z.b2z].
  destruct (Z.ltb_spec (uint32_t (c + 1)) MIN_STATE_SECONDS) as [|Hge]; [auto|].
  assert (Hdead : mqtt_dead (uint32_t (c + 1)) 50 = true).
  { pose proof (uint32_t_range (c + 1)) as Hr.
    unfold mqtt_dead, mqttDiff. apply Z.ltb_lt.
    unfold uint32_t at 1. rewrite Z.mod_small; unfold MIN_STATE_SECONDS in Hge.
    - change MQTT_DEAD_TIME with 180. lia.
    - lia. }
  rewrite Hdead. auto.
Qed.

Lemma ticks_keep_stale_excess (n : nat) :
  forall s : state,
    g_excess s = false -> g_currentMode s = 1 -> g_mqttLastResponseTime s = 50 ->
    g_currentMode (run (ticks n) s) = 1.
Proof.
  induction n as [|n IH]; intros s He Hm Hl; [assumption|].
  cbn [ticks repeat run].
  destruct (tick_keeps_stale_excess s He Hm Hl) as (He' & Hm' & Hl').
  now apply IH.
Qed.

(** C2: the code does not converge.  The trace [off_then_silence] reaches,
    from start-up, committed excess with the desired mode normal and the
    last acknowledgement at dwell clock 50.  With no further event but
    ticks, the committed mode is excess after any number of ticks, also
    across the wrap of the dwell clock; the precautionary pin write at
    dwell clock 600 drives the pin high. *)
Theorem excess_stuck_without_acks (n : nat) :
  reachable (mkState false 1 50 50) /\
  run off_then_silence initial = mkState false 1 50 50 /\
  g_currentMode (run (ticks n) (run off_then_silence initial)) = 1 /\
  effects Tick (run (ticks 549) (run off_then_silence initial)) =
    [ Display 1 false 1;
      SerialPrint "Paranoid pin set: ";
      SerialPrintf "Setting pins for mode %i.\n" [ArgInt 1];
      DigitalWrite SG_PIN_LSB HIGH ].
Proof.
  assert (Hrun : run off_then_silence initial = mkState false 1 50 50)
    by (vm_compute; reflexivity).
  split; [|split; [|split]].
  - exists off_then_silence. exact Hrun.
  - exact Hrun.
  - rewrite Hrun. apply ticks_keep_stale_excess; reflexivity.
  - vm_compute. reflexivity.
Qed.

(** ** The heartbeat *)

(** A tick publishes the mode once if the dwell clock it starts from is a
    multiple of the keep-alive interval, and once more if it commits. *)
Lemma mode_publishes_tick (s : state) :
  mode_publishes (effects Tick s) =
  Nat.add
    (if g_currentStateTime s mod MQTT_KEEPALIVE_INTERVAL =? 0 then 1%nat else 0%nat)
    (if mode_changes Tick s then 1%nat else 0%nat).
Proof.
  assert (Hneq : forall a b : Z, (a =? b) = false -> negb (b =? a) = true).
  { intros a b E. now rewrite Z.eqb_sym, E. }
  unfold mode_changes. rewrite step_Tick. unfold tick_state.
  destruct s as [excess mode last t0]. unfold_fn.
  cbv [g_currentStateTime g_excess g_currentMode g_mqttLastResponseTime
       set_currentStateTime set_excess set_currentMode].
  destruct (t0 mod MQTT_KEEPALIVE_INTERVAL =? 0);
    destruct (uint32_t (t0 + 1) <? MIN_STATE_SECONDS);
    try (rewrite Z.eqb_refl; reflexivity);
    destruct (mqtt_dead (uint32_t (t0 + 1)) last).
  all: destruct excess; cbv [Z.b2z].
  all: try (destruct (uint32_t (t0 + 1) mod 30 =? 0); rewrite Z.eqb_refl; reflexivity).
  all: try (destruct (mode =? 0) eqn:Hm;
            [rewrite Z.eqb_refl | rewrite (Hneq _ _ Hm)]; reflexivity).
  all: try (destruct (mode =? 1) eqn:Hm;
            [rewrite Z.eqb_refl | rewrite (Hneq _ _ Hm)]; reflexivity).
Qed.

Lemma mode_publishes_app (out1 out2 : list effect) :
  mode_publishes (out1 ++ out2) = (mode_publishes out1 + mode_publishes out2)%nat.
Proof. unfold mode_publishes. now rewrite filter_app, length_app. Qed.

Lemma mode_publishes_message (topic payload : string) (s : state) :
  mode_publishes (effects (Message topic payload) s) = 0%nat.
Proof.
  rewrite effects_Message, mode_publishes_app. unfold diagnostics.
  destruct (String.eqb topic _); [destruct (_ || _)|]; reflexivity.
Qed.

(** Without a commit the dwell clock counts the ticks, and the ticks that
    publish the mode are those that start from a multiple of 60. *)
Lemma publish_ticks_no_commit (evs : list event) :
  forall (s : state) (now : nat),
    g_currentStateTime s = Z.of_nat now ->
    Z.of_nat now + Z.of_nat (count_ticks evs) < 2 ^ 32 ->
    commit_ticks evs s now = [] ->
    publish_ticks evs s now
      = filter (fun i => Z.of_nat i mod MQTT_KEEPALIVE_INTERVAL =? 0)
          (seq now (count_ticks evs)) /\
    mode_publishes (run_effects evs s) = List.length (publish_ticks evs s now).
Proof.
  induction evs as [|ev evs IH]; intros s now Hclock Hbound Hnone; [split; reflexivity|].
  rewrite count_ticks_cons in *.
  destruct ev as [|topic payload|packetId];
    cbn [commit_ticks publish_ticks run_effects] in *;
    rewrite mode_publishes_app.
  - destruct (mode_changes Tick s) eqn:Hm; [discriminate Hnone|].
    cbn [app] in Hnone.
    destruct (tick_cases s) as [(_ & Ht & _)|(Hm' & _)]; [|congruence].
    destruct (IH (step Tick s) (S now)) as [Hp Hn]; try assumption.
    { rewrite Ht, Hclock. unfold uint32_t. rewrite Z.mod_small; lia. }
    { lia. }
    rewrite mode_publishes_tick, Hm, Hclock, Hn, Hp. cbn [Nat.add seq filter].
    destruct (Z.of_nat now mod MQTT_KEEPALIVE_INTERVAL =? 0); split; reflexivity.
  - rewrite mode_publishes_message. cbn [Nat.add].
    apply IH; try assumption. now rewrite step_Message.
  - apply IH; assumption.
Qed.

(** C6, as stated, fails: a tick starting from dwell clock 59 advances it
    to 60 and publishes nothing, the tick starting from 0 advances it to 1
    and publishes; and with a commit at tick 600 the mode is published 19
    times in 1000 ticks, by 18 of the ticks. *)
Lemma heartbeat_tests_clock_before_advance :
  (g_currentStateTime (step Tick (mkState false 0 0 59)) = 60 /\
   mode_publishes (effects Tick (mkState false 0 0 59)) = 0%nat) /\
  (g_currentStateTime (step Tick initial) = 1 /\
   mode_publishes (effects Tick initial) = 1%nat) /\
  count_ticks commit_after_600 = 1000%nat /\
  commit_ticks commit_after_600 initial 0 = [600%nat] /\
  mode_publishes (run_effects commit_after_600 initial) = 19%nat /\
  publish_ticks commit_after_600 initial 0 =
    [0; 60; 120; 180; 240; 300; 360; 420; 480; 540; 600;
     601; 661; 721; 781; 841; 901; 961]%nat.
Proof. vm_compute. repeat split. Qed.

(** C6, amended. A tick publishes the committed mode as a heartbeat
    exactly when the dwell clock it starts from is a multiple of 60, and
    then advances the clock by one; a tick that commits publishes the mode
    once more and restarts the clock at 0.  Hence, over 1000 ticks from
    dwell clock 0, interleaved with any messages and acknowledgements but
    with no commit, the mode is published exactly 17 times, by the ticks 0,
    60, 120, ..., 960. *)
Theorem heartbeat_cadence (evs : list event) (s : state) :
  g_currentStateTime s = 0 ->
  count_ticks evs = 1000%nat ->
  commit_ticks evs s 0 = [] ->
  publish_ticks evs s 0 =
    [0; 60; 120; 180; 240; 300; 360; 420; 480; 540; 600;
     660; 720; 780; 840; 900; 960]%nat /\
  mode_publishes (run_effects evs s) = 17%nat /\
  (forall s' : state,
      mode_publishes (effects Tick s') =
        Nat.add
          (if g_currentStateTime s' mod MQTT_KEEPALIVE_INTERVAL =? 0 then 1%nat else 0%nat)
          (if mode_changes Tick s' then 1%nat else 0%nat) /\
      g_currentStateTime (step Tick s') =
        if mode_changes Tick s' then 0 else uint32_t (g_currentStateTime s' + 1)).
Proof.
  intros Hclock Hcount Hnone.
  destruct (publish_ticks_no_commit evs s 0) as [Hp Hn]; try assumption.
  { rewrite Hcount. cbn. lia. }
  rewrite Hcount in Hp.
  assert (Hl : publish_ticks evs s 0 =
    [0; 60; 120; 180; 240; 300; 360; 420; 480; 540; 600;
     660; 720; 780; 840; 900; 960]%nat).
  { rewrite Hp. vm_compute. reflexivity. }
  split; [exact Hl|]. split; [rewrite Hn, Hl; reflexivity|].
  intros s'. split; [apply mode_publishes_tick|].
  destruct (tick_cases s') as [(Hm & Ht & _)|(Hm & _ & Ht & _)]; now rewrite Hm.
Qed.

Lemma heartbeat_cadence_witness :
  g_currentStateTime initial = 0 /\
  count_ticks (ticks 1000) = 1000%nat /\
  commit_ticks (ticks 1000) initial 0 = [] /\
  mode_publishes (run_effects (ticks 1000) initial) = 17%nat.
Proof.
  assert (H1 : g_currentStateTime initial = 0) by reflexivity.
  assert (H2 : count_ticks (ticks 1000) = 1000%nat) by (vm_compute; reflexivity).
  assert (H3 : commit_ticks (ticks 1000) initial 0 = []) by (vm_compute; reflexivity).
  split; [exact H1|]. split; [exact H2|]. split; [exact H3|].
  apply (heartbeat_cadence (ticks 1000) initial H1 H2 H3).
Defined.

(** ** Effects of a tick *)

Lemma effects_Tick (s : state) : effects Tick s = tick_effects s.
Proof.
  destruct s as [excess mode last t0].
  unfold tick_effects, commit_effects, level_of_mode. unfold_fn.
  cbv [g_currentStateTime g_excess g_currentMode g_mqttLastResponseTime
       set_currentStateTime set_excess set_currentMode].
  destruct (t0 mod MQTT_KEEPALIVE_INTERVAL =? 0);
    destruct (uint32_t (t0 + 1) <? MIN_STATE_SECONDS); try reflexivity;
    destruct (mqtt_dead (uint32_t (t0 + 1)) last).
  all: destruct excess; cbv [Z.b2z].
  all: try (destruct (uint32_t (t0 + 1) mod 30 =? 0); reflexivity).
  all: try (destruct (mode =? 0); reflexivity).
  all: try (destruct (mode =? 1); reflexivity).
Qed.

Lemma run_effects_app (evs1 evs2 : list event) (s : state) :
  run_effects (evs1 ++ evs2) s = run_effects evs1 s ++ run_effects evs2 (run evs1 s).
Proof.
  revert s. induction evs1 as [|ev evs1 IH]; intros s; [reflexivity|].
  cbn [app run_effects run]. now rewrite IH, app_assoc.
Qed.

(** ** Invariants of the globals *)

Lemma step_keeps_ranges (ev : event) (s : state) :
  (g_currentMode s = 0 \/ g_currentMode s = 1) ->
  0 <= g_mqttLastResponseTime s < 2 ^ 32 ->
  0 <= g_currentStateTime s < 2 ^ 32 ->
  (g_currentMode (step ev s) = 0 \/ g_currentMode (step ev s) = 1) /\
  0 <= g_mqttLastResponseTime (step ev s) < 2 ^ 32 /\
  0 <= g_currentStateTime (step ev s) < 2 ^ 32.
Proof.
  intros Hm Hl Hc. destruct ev as [|topic payload|packetId].
  - pose proof (uint32_t_range (g_currentStateTime s + 1)) as Hr.
    rewrite step_Tick. unfold tick_state.
    destruct (_ <? _); [cbn; auto|].
    destruct (mqtt_dead _ _); [destruct (g_excess s); [destruct (_ =? _)|]|];
      cbn; auto; try lia.
    destruct (_ =? _); cbn; auto. destruct (g_excess s); cbn; lia.
  - rewrite step_Message. cbn. auto.
  - rewrite step_PublishAck. cbn. auto.
Qed.

(** X1. In every state the controller reaches from start-up, the committed
    mode is 0 or 1 and both clocks hold values below 2^32. *)
Theorem reachable_ranges (evs : list event) :
  (g_currentMode (run evs initial) = 0 \/ g_currentMode (run evs initial) = 1) /\
  0 <= g_mqttLastResponseTime (run evs initial) < 2 ^ 32 /\
  0 <= g_currentStateTime (run evs initial) < 2 ^ 32.
Proof.
  assert (H : forall s,
    (g_currentMode s = 0 \/ g_currentMode s = 1) ->
    0 <= g_mqttLastResponseTime s < 2 ^ 32 ->
    0 <= g_currentStateTime s < 2 ^ 32 ->
    (g_currentMode (run evs s) = 0 \/ g_currentMode (run evs s) = 1) /\
    0 <= g_mqttLastResponseTime (run evs s) < 2 ^ 32 /\
    0 <= g_currentStateTime (run evs s) < 2 ^ 32).
  { induction evs as [|ev evs IH]; intros s Hm Hl Hc; [auto|].
    destruct (step_keeps_ranges ev s Hm Hl Hc) as (Hm' & Hl' & Hc').
    cbn [run]. now apply IH. }
  apply H; cbn; [auto | lia | lia].
Qed.

(** ** The pin and the retained mode follow the committed mode *)

Lemma pin_after_app (out1 out2 : list effect) (p : level) :
  pin_after (out1 ++ out2) p = pin_after out2 (pin_after out1 p).
Proof. apply fold_left_app. Qed.

Lemma retained_app (topic : string) (out1 out2 : list effect) (r : string) :
  retained topic (out1 ++ out2) r = retained topic out2 (retained topic out1 r).
Proof. apply fold_left_app. Qed.

Lemma pin_after_tick (s : state) :
  pin_after (effects Tick s) (level_of_mode (g_currentMode s))
  = level_of_mode (g_currentMode (step Tick s)).
Proof.
  rewrite effects_Tick, step_Tick. unfold tick_effects, tick_state, commit_effects.
  destruct s as [excess mode last t0].
  cbn [g_currentStateTime g_excess g_currentMode g_mqttLastResponseTime set_currentStateTime].
  rewrite !pin_after_app.
  destruct (t0 mod MQTT_KEEPALIVE_INTERVAL =? 0);
    (destruct (_ <? _); [reflexivity|]);
    (destruct (mqtt_dead _ _); [destruct excess|]);
    try (destruct (mode =? _); reflexivity);
    try (destruct (_ mod 30 =? 0); cbn; try reflexivity;
         rewrite Z.eqb_refl; reflexivity).
Qed.

Lemma pin_after_event (ev : event) (s : state) :
  pin_after (effects ev s) (level_of_mode (g_currentMode s))
  = level_of_mode (g_currentMode (step ev s)).
Proof.
  destruct ev as [|topic payload|packetId].
  - apply pin_after_tick.
  - rewrite effects_Message, step_Message. unfold diagnostics.
    destruct (String.eqb topic _); [destruct (_ || _)|]; reflexivity.
  - reflexivity.
Qed.

(** X2. The SG Ready pin follows the committed mode: starting with the pin
    at the level of the committed mode, after any trace of ticks, messages
    and acknowledgements the last level written to the pin is HIGH exactly
    when the committed mode is not 0. *)
Theorem pin_follows_mode (evs : list event) (s : state) :
  pin_after (run_effects evs s) (level_of_mode (g_currentMode s))
  = level_of_mode (g_currentMode (run evs s)).
Proof.
  revert s. induction evs as [|ev evs IH]; intros s; [reflexivity|].
  cbn [run_effects run]. now rewrite pin_after_app, pin_after_event, IH.
Qed.

Lemma retained_mode_tick (s : state) :
  retained mode_state_topic (effects Tick s) (String_of_int (g_currentMode s))
  = String_of_int (g_currentMode (step Tick s)).
Proof.
  rewrite effects_Tick, step_Tick. unfold tick_effects, tick_state, commit_effects.
  destruct s as [excess mode last t0].
  cbn [g_currentStateTime g_excess g_currentMode g_mqttLastResponseTime set_currentStateTime].
  rewrite !retained_app.
  destruct (t0 mod MQTT_KEEPALIVE_INTERVAL =? 0);
    (destruct (_ <? _); [reflexivity|]);
    (destruct (mqtt_dead _ _); [destruct excess|]);
    try (destruct (mode =? _); reflexivity);
    try (destruct (_ mod 30 =? 0); reflexivity).
Qed.

Lemma retained_mode_event (ev : event) (s : state) :
  retained mode_state_topic (effects ev s) (String_of_int (g_currentMode s))
  = String_of_int (g_currentMode (step ev s)).
Proof.
  destruct ev as [|topic payload|packetId].
  - apply retained_mode_tick.
  - rewrite effects_Message, step_Message. unfold diagnostics.
    destruct (String.eqb topic _); [destruct (_ || _)|]; reflexivity.
  - reflexivity.
Qed.

(** X3. The retained state of the mode sensor follows the committed mode:
    if the broker holds the decimal rendering of the committed mode on the
    mode state topic, it still does after any trace of ticks, messages and
    acknowledgements (every change of the mode is published, retained, on
    that topic, after any heartbeat of the same tick). *)
Theorem retained_mode_follows_mode (evs : list event) (s : state) :
  retained mode_state_topic (run_effects evs s) (String_of_int (g_currentMode s))
  = String_of_int (g_currentMode (run evs s)).
Proof.
  revert s. induction evs as [|ev evs IH]; intros s; [reflexivity|].
  cbn [run_effects run]. now rewrite retained_app, retained_mode_event, IH.
Qed.

(** ** A live broker *)

(** One acknowledged tick: the difference seen by the liveness test is 1. *)
Lemma acked_tick (s : state) :
  let s' := run [PublishAck 0; Tick] s in
  g_excess s' = g_excess s /\
  ((uint32_t (g_currentStateTime s + 1) <? MIN_STATE_SECONDS) = true ->
   g_currentMode s' = g_currentMode s /\
   g_currentStateTime s' = uint32_t (g_currentStateTime s + 1)) /\
  ((uint32_t (g_currentStateTime s + 1) <? MIN_STATE_SECONDS) = false ->
   g_currentMode s' = Z.b2z (g_excess s)) /\
  (g_currentMode s = Z.b2z (g_excess s) -> g_currentMode s' = Z.b2z (g_excess s)).
Proof.
  cbn [run]. rewrite step_PublishAck, step_Tick. unfold tick_state.
  destruct s as [excess mode last c].
  cbn [g_currentStateTime g_excess g_currentMode g_mqttLastResponseTime
       set_currentStateTime set_mqttLastResponseTime].
  assert (Halive : mqtt_dead (uint32_t (c + 1)) c = false).
  { unfold mqtt_dead, mqttDiff, uint32_t. rewrite Zminus_mod_idemp_l.
    replace (c + 1 - c) with 1 by lia. reflexivity. }
  rewrite Halive.
  destruct (uint32_t (c + 1) <? MIN_STATE_SECONDS).
  - cbn. repeat split; auto; discriminate.
  - destruct (Z.eqb_spec mode (Z.b2z excess)) as [->|Hne]; cbn;
      repeat split; auto; discriminate.
Qed.

Lemma acked_ticks_S (n : nat) (s : state) :
  run (acked_ticks (S n)) s = run (acked_ticks n) (run [PublishAck 0; Tick] s).
Proof. reflexivity. Qed.

Lemma acked_ticks_keep (n : nat) :
  forall s : state,
    g_currentMode s = Z.b2z (g_excess s) ->
    g_currentMode (run (acked_ticks n) s) = Z.b2z (g_excess s) /\
    g_excess (run (acked_ticks n) s) = g_excess s.
Proof.
  induction n as [|n IH]; intros s Hagree; [auto|].
  rewrite acked_ticks_S.
  destruct (acked_tick s) as (He & _ & _ & Hk). cbv zeta in He, Hk.
  destruct (IH (run [PublishAck 0; Tick] s)) as [Hm He'].
  { rewrite He. now apply Hk. }
  rewrite Hm, He', He. auto.
Qed.

Lemma acked_ticks_reach (n : nat) :
  forall s : state,
    0 <= g_currentStateTime s < MIN_STATE_SECONDS ->
    MIN_STATE_SECONDS <= g_currentStateTime s + Z.of_nat n ->
    g_currentMode (run (acked_ticks n) s) = Z.b2z (g_excess s) /\
    g_excess (run (acked_ticks n) s) = g_excess s.
Proof.
  assert (Hms : MIN_STATE_SECONDS = 600) by reflexivity.
  induction n as [|n IH]; intros s Hc Hn; [lia|].
  rewrite acked_ticks_S.
  destruct (acked_tick s) as (He & Hlt & Hge & _). cbv zeta in He, Hlt, Hge.
  assert (Hu : uint32_t (g_currentStateTime s + 1) = g_currentStateTime s + 1)
    by (apply Z.mod_small; lia).
  rewrite Hu in Hlt, Hge.
  destruct (g_currentStateTime s + 1 <? MIN_STATE_SECONDS) eqn:Hgate.
  - destruct (Hlt eq_refl) as [_ Hc']. apply Z.ltb_lt in Hgate.
    destruct (IH (run [PublishAck 0; Tick] s)) as [Hm He']; try (rewrite Hc'; lia).
    rewrite Hm, He', He. auto.
  - specialize (Hge eq_refl).
    destruct (acked_ticks_keep n (run [PublishAck 0; Tick] s)) as [Hm He'].
    { now rewrite He. }
    rewrite Hm, He', He. auto.
Qed.

(** X4. With a live broker the desired mode is committed within 601 ticks:
    from every state, after at least 601 ticks that each follow an
    acknowledgement, with no message in between, the committed mode is the
    desired mode, and the desired mode is the one the run started with. *)
Theorem live_broker_commits_desired (n : nat) (s : state) :
  (601 <= n)%nat ->
  g_currentMode (run (acked_ticks n) s) = Z.b2z (g_excess s) /\
  g_excess (run (acked_ticks n) s) = g_excess s.
Proof.
  assert (Hms : MIN_STATE_SECONDS = 600) by reflexivity.
  intros Hn. destruct n as [|n]; [lia|]. rewrite acked_ticks_S.
  destruct (acked_tick s) as (He & Hlt & Hge & _). cbv zeta in He, Hlt, Hge.
  pose proof (uint32_t_range (g_currentStateTime s + 1)) as Hr.
  destruct (uint32_t (g_currentStateTime s + 1) <? MIN_STATE_SECONDS) eqn:Hgate.
  - destruct (Hlt eq_refl) as [_ Hc']. apply Z.ltb_lt in Hgate.
    destruct (acked_ticks_reach n (run [PublishAck 0; Tick] s)) as [Hm He'];
      try (rewrite Hc'; lia).
    rewrite Hm, He', He. auto.
  - specialize (Hge eq_refl).
    destruct (acked_ticks_keep n (run [PublishAck 0; Tick] s)) as [Hm He'].
    { now rewrite He. }
    rewrite Hm, He', He. auto.
Qed.

(** Excess is desired with the dwell clock about to wrap: the commit comes
    with the 601st tick. *)
Lemma live_broker_commits_desired_witness :
  g_currentMode (run (acked_ticks 601) (mkState true 0 0 (2 ^ 32 - 1))) = 1 /\
  g_currentMode (run (acked_ticks 600) (mkState true 0 0 (2 ^ 32 - 1))) = 0.
Proof.
  split; [|vm_compute; reflexivity].
  apply (live_broker_commits_desired 601 (mkState true 0 0 (2 ^ 32 - 1))). lia.
Defined.

(** ** Before the first acknowledgement *)

Lemma silent_step (ev : event) (s : state) :
  match ev with PublishAck _ => false | _ => true end = true ->
  g_currentMode s = 0 -> g_mqttLastResponseTime s = 0 ->
  (g_currentMode (step ev s) = 0 /\ g_mqttLastResponseTime (step ev s) = 0) /\
  filter is_high_write (effects ev s) = [].
Proof.
  intros Hev Hm Hl. destruct ev as [|topic payload|packetId]; [| |discriminate Hev].
  - rewrite effects_Tick, step_Tick. unfold tick_effects, tick_state, commit_effects.
    destruct s as [excess mode last c]. cbn in Hm, Hl. subst mode last.
    cbn [g_currentStateTime g_excess g_currentMode g_mqttLastResponseTime
         set_currentStateTime].
    rewrite !filter_app.
    assert (Hhb : forall b : bool,
      filter is_high_write
        (if b then
           [ SerialPrintf "Publishing mode %i.\n" [ArgInt 0];
             MqttPublish mode_state_topic 1 true (String_of_int 0) ]
         else []) = []) by (intros []; reflexivity).
    rewrite Hhb.
    destruct (Z.ltb_spec (uint32_t (c + 1)) MIN_STATE_SECONDS) as [|Hge]; [auto|].
    assert (Hdead : mqtt_dead (uint32_t (c + 1)) 0 = true).
    { pose proof (uint32_t_range (c + 1)) as Hr. unfold MIN_STATE_SECONDS in Hge.
      unfold mqtt_dead, mqttDiff. rewrite Z.sub_0_r. unfold uint32_t at 1.
      rewrite Z.mod_small by lia. apply Z.ltb_lt. change MQTT_DEAD_TIME with 180. lia. }
    rewrite Hdead. destruct excess; [auto|].
    destruct (_ mod 30 =? 0); auto.
  - rewrite effects_Message, step_Message. split; [auto|].
    unfold diagnostics. destruct (String.eqb topic _); [destruct (_ || _)|]; reflexivity.
Qed.

(** X5. Excess mode is never committed before the broker has acknowledged a
    publish: from start-up, along every trace of ticks and messages
    (whatever is commanded) that holds no acknowledgement, the committed
    mode stays 0 and no write drives the pin HIGH. *)
Theorem no_excess_before_first_ack (evs : list event) :
  no_ack evs = true ->
  g_currentMode (run evs initial) = 0 /\
  filter is_high_write (run_effects evs initial) = [].
Proof.
  assert (H : forall s, no_ack evs = true ->
    g_currentMode s = 0 -> g_mqttLastResponseTime s = 0 ->
    g_currentMode (run evs s) = 0 /\ filter is_high_write (run_effects evs s) = []).
  { induction evs as [|ev evs IH]; intros s Hno Hm Hl; [auto|].
    cbn [no_ack forallb] in Hno. apply andb_true_iff in Hno as [Hev Hno].
    destruct (silent_step ev s Hev Hm Hl) as [[Hm' Hl'] Hw].
    destruct (IH (step ev s) Hno Hm' Hl') as [Hm2 Hw2].
    cbn [run run_effects]. rewrite filter_app, Hw, Hw2. auto. }
  intros Hno. apply H; auto.
Qed.

Lemma no_excess_before_first_ack_witness :
  no_ack ([Message command_topic "ON"] ++ ticks 700) = true /\
  g_currentMode (run ([Message command_topic "ON"] ++ ticks 700) initial) = 0.
Proof.
  assert (H : no_ack ([Message command_topic "ON"] ++ ticks 700) = true)
    by (vm_compute; reflexivity).
  split; [exact H|].
  apply (no_excess_before_first_ack ([Message command_topic "ON"] ++ ticks 700) H).
Defined.

(** ** What a commit does, and who sets the desired mode *)

(** X6. Whenever a tick changes the committed mode, the new mode is the
    desired mode as the tick leaves it, the pin is driven to its level and
    both states are published; and a tick enters excess mode only with
    excess desired and the broker not judged dead. *)
Theorem commit_agrees_with_desired (s : state) :
  mode_changes Tick s = true ->
  g_currentMode (step Tick s) = Z.b2z (g_excess (step Tick s)) /\
  In (DigitalWrite SG_PIN_LSB (level_of_mode (g_currentMode (step Tick s))))
     (effects Tick s) /\
  In (MqttPublish mode_state_topic 1 true (String_of_int (g_currentMode (step Tick s))))
     (effects Tick s) /\
  In (MqttPublish excess_state_topic 1 true (on_off (g_excess (step Tick s))))
     (effects Tick s) /\
  (g_currentMode (step Tick s) = 1 -> judged_dead s = false /\ g_excess s = true).
Proof.
  unfold mode_changes, judged_dead.
  rewrite effects_Tick, step_Tick. unfold tick_effects, tick_state, commit_effects.
  destruct s as [excess mode last c].
  cbn [g_currentStateTime g_excess g_currentMode g_mqttLastResponseTime
       set_currentStateTime].
  destruct (uint32_t (c + 1) <? MIN_STATE_SECONDS).
  { cbn. rewrite Z.eqb_refl. discriminate. }
  destruct (mqtt_dead _ _); destruct excess; cbn [Z.b2z negb andb].
  - destruct (mode =? 0); cbn [g_currentMode g_excess Z.b2z].
    + rewrite Z.eqb_refl. discriminate.
    + intros _. repeat split; try discriminate;
        apply in_or_app; right; apply in_or_app; right; cbn; auto 10.
  - cbn. rewrite Z.eqb_refl. discriminate.
  - destruct (mode =? 1); cbn [g_currentMode g_excess Z.b2z].
    + rewrite Z.eqb_refl. discriminate.
    + intros _. repeat split;
        apply in_or_app; right; apply in_or_app; right; cbn; auto 10.
  - destruct (mode =? 0); cbn [g_currentMode g_excess Z.b2z].
    + rewrite Z.eqb_refl. discriminate.
    + intros _. repeat split; try discriminate;
        apply in_or_app; right; apply in_or_app; right; cbn; auto 10.
Qed.

Lemma commit_agrees_with_desired_witness :
  mode_changes Tick (mkState true 0 599 599) = true /\
  g_currentMode (step Tick (mkState true 0 599 599))
  = Z.b2z (g_excess (step Tick (mkState true 0 599 599))).
Proof.
  assert (H : mode_changes Tick (mkState true 0 599 599) = true)
    by (vm_compute; reflexivity).
  split; [exact H|]. apply (commit_agrees_with_desired (mkState true 0 599 599) H).
Defined.

(** X7. The controller never raises the desired mode by itself: the only
    event that turns the desired mode from false to true is the message
    "ON" on the command topic. *)
Theorem only_on_command_raises_desired (ev : event) (s : state) :
  g_excess s = false -> g_excess (step ev s) = true ->
  ev = Message command_topic "ON".
Proof.
  intros Hoff Hon. destruct ev as [|topic payload|packetId].
  - rewrite tick_excess, Hoff in Hon. discriminate.
  - rewrite step_Message in Hon. cbn in Hon.
    apply andb_true_iff in Hon as [Ht Hp].
    apply String.eqb_eq in Ht, Hp. now subst.
  - rewrite step_PublishAck in Hon. cbn in Hon. congruence.
Qed.

Lemma only_on_command_raises_desired_witness :
  g_excess initial = false /\
  g_excess (step (Message "sgready_board_Excess/set" "ON") initial) = true /\
  Message "sgready_board_Excess/set" "ON" = Message command_topic "ON".
Proof.
  assert (H1 : g_excess initial = false) by reflexivity.
  assert (H2 : g_excess (step (Message "sgready_board_Excess/set" "ON") initial) = true)
    by reflexivity.
  split; [exact H1|]. split; [exact H2|].
  apply (only_on_command_raises_desired
           (Message "sgready_board_Excess/set" "ON") initial H1 H2).
Defined.

(** X8. A forced revert before the commit is silent: when a tick judges the
    broker dead while excess is desired but the committed mode is still 0,
    it clears the desired mode and logs the revert, but publishes nothing
    on the switch state topic and writes no pin; whatever the broker retains
    as switch state stays as it was. *)
Theorem forced_revert_is_silent (s : state) (r : string) :
  judged_dead s = true -> g_excess s = true -> g_currentMode s = 0 ->
  g_excess (step Tick s) = false /\
  g_currentMode (step Tick s) = 0 /\
  In (SerialPrintf
        "No MQTT response received in %u seconds, reverting to normal mode.\n"
        [ArgInt (mqttDiff (uint32_t (g_currentStateTime s + 1))
                          (g_mqttLastResponseTime s))])
     (effects Tick s) /\
  excess_publishes (effects Tick s) = 0%nat /\
  filter is_pin_write (effects Tick s) = [] /\
  retained excess_state_topic (effects Tick s) r = r.
Proof.
  unfold judged_dead. intros Hd He Hm.
  apply andb_true_iff in Hd as [Hgate Hdead]. apply negb_true_iff in Hgate.
  rewrite effects_Tick, step_Tick. unfold tick_effects, tick_state, commit_effects.
  destruct s as [excess mode last c]. cbn in He, Hm. subst excess mode.
  cbn [g_currentStateTime g_excess g_currentMode g_mqttLastResponseTime] in *.
  rewrite Hgate, Hdead. cbn [Z.b2z Z.eqb app].
  destruct (c mod MQTT_KEEPALIVE_INTERVAL =? 0);
    repeat split; cbn; auto.
Qed.

Lemma forced_revert_is_silent_witness :
  g_excess (step Tick (mkState true 0 0 599)) = false /\
  retained excess_state_topic (effects Tick (mkState true 0 0 599)) "ON" = "ON".
Proof.
  assert (H : judged_dead (mkState true 0 0 599) = true) by (vm_compute; reflexivity).
  destruct (forced_revert_is_silent (mkState true 0 0 599) "ON" H eq_refl eq_refl)
    as (He & _ & _ & _ & _ & Hr).
  exact (conj He Hr).
Defined.

(** ** After an acknowledgement *)

(** X9. After an acknowledgement no tick judges the broker dead before more
    than 180 ticks have passed without a further one: along every
    continuation (ticks, messages, acknowledgements, commits included), a
    dead verdict implies that the ticks since the last acknowledgement,
    the judging one included, number more than [MQTT_DEAD_TIME]. *)
Theorem ack_defers_dead_verdict (s : state) (packetId : Z) (evs : list event) :
  0 <= g_currentStateTime s < 2 ^ 32 ->
  judged_dead (run evs (step (PublishAck packetId) s)) = true ->
  MQTT_DEAD_TIME < Z.of_nat (quiet_ticks evs) + 1.
Proof.
  intros Hc Hdead.
  destruct (clocks_track_run evs (step (PublishAck packetId) s)
              (g_currentStateTime s) 0%nat) as (d' & _ & Htr).
  { rewrite step_PublishAck. repeat split; try lia.
    - cbn. symmetry. apply Z.mod_small. lia.
    - intros _. cbn. rewrite Z.sub_0_r. symmetry. apply Z.mod_small. lia. }
  apply (judged_dead_tracked _ _ _ Htr Hdead).
Qed.

Lemma ack_defers_dead_verdict_witness :
  judged_dead (run (ticks 599) (step (PublishAck 7) initial)) = true /\
  MQTT_DEAD_TIME < Z.of_nat (quiet_ticks (ticks 599)) + 1.
Proof.
  assert (H : judged_dead (run (ticks 599) (step (PublishAck 7) initial)) = true)
    by (vm_compute; reflexivity).
  split; [exact H|].
  apply (ack_defers_dead_verdict initial 7 (ticks 599)); [cbn; lia | exact H].
Defined.

(** ** The connectivity callbacks *)

Lemma core_effects_app (out1 out2 : list net_effect) :
  core_effects (out1 ++ out2) = core_effects out1 ++ core_effects out2.
Proof. apply flat_map_app. Qed.

Lemma core_effects_map (out : list effect) : core_effects (map Core out) = out.
Proof.
  unfold core_effects. induction out as [|e out IH]; [reflexivity|].
  cbn [map flat_map app]. now rewrite IH.
Qed.

Ltac unfold_callback :=
  cbv [sys_handler onMqttConnect onMqttDisconnect onMqttSubscribe onMqttUnsubscribe
       connectToMqtt connectToWifi WiFiEvent mqttHomeAssistantDiscovery
       block net core negb fst snd app map core_effects flat_map
       exec DrawDisplay mqttPublishExcess mqttPublishMode
       call bind ret read write emit id].

(** X10. On connect the controller re-announces its state and subscribes:
    [onMqttConnect] changes no global; with the client connected it
    publishes, retained, the desired mode on the switch state topic and the
    committed mode on the mode state topic, so that the broker holds both
    whatever it held before; and it subscribes to the command topic with
    QoS 1.  If the client reports not connected, nothing is published, but
    the subscription is still requested. *)
Theorem onMqttConnect_announces (serializeJson : json -> string)
    (sessionPresent : bool) (s : state) (r1 r2 : string) :
  fst (onMqttConnect serializeJson sessionPresent true s) = s /\
  retained excess_state_topic
    (core_effects (snd (onMqttConnect serializeJson sessionPresent true s))) r1
    = on_off (g_excess s) /\
  retained mode_state_topic
    (core_effects (snd (onMqttConnect serializeJson sessionPresent true s))) r2
    = String_of_int (g_currentMode s) /\
  In (MqttSubscribe command_topic 1)
     (snd (onMqttConnect serializeJson sessionPresent true s)) /\
  fst (onMqttConnect serializeJson sessionPresent false s) = s /\
  filter is_publish
    (core_effects (snd (onMqttConnect serializeJson sessionPresent false s))) = [] /\
  In (MqttSubscribe command_topic 1)
     (snd (onMqttConnect serializeJson sessionPresent false s)).
Proof.
  unfold_callback. cbn [REMOVE_HA_DEVICE Z.eqb].
  split; [reflexivity|]. split; [reflexivity|]. split; [reflexivity|].
  split; [cbn; auto 20|]. split; [reflexivity|]. split; [reflexivity|].
  cbn; auto 20.
Qed.

(** X11. The discovery documents advertise the topics the controller uses.
    Let [t] be the [command_topic] and [ts] the [state_topic] of the switch
    document, and [tm] the [state_topic] of the sensor document.  Then [t]
    is "sgready_board_Excess/set", the topic [onMqttConnect] subscribes to,
    and the only topic on which the message handler accepts a command: a
    message makes the desired mode true exactly when it is "ON" on [t];
    "OFF" on [t] is taken without a diagnostic, while every message on
    another topic draws the unknown-topic diagnostic.  [mqttPublishExcess]
    publishes the token "ON" or "OFF" of the desired mode on [ts] and
    [mqttPublishMode] the decimal committed mode on [tm], both retained
    with QoS 1.  Both documents name the device by [uniqueID]. *)
Theorem discovery_topics_are_used (serializeJson : json -> string)
    (sessionPresent connected : bool) (t ts tm : string) (s : state) :
  lookup ["command_topic"] excess_config = Some (JString t) ->
  lookup ["state_topic"] excess_config = Some (JString ts) ->
  lookup ["state_topic"] mode_config = Some (JString tm) ->
  (t = "sgready_board_Excess/set" /\ ts = "sgready_board_Excess/state" /\
   tm = "sgready_board_Mode/state") /\
  In (MqttSubscribe t 1) (snd (onMqttConnect serializeJson sessionPresent connected s)) /\
  (forall topic payload : string,
      g_excess (step (Message topic payload) s) = true <-> topic = t /\ payload = "ON") /\
  effects (Message t "OFF") s =
    [ SerialPrintf "Publishing excess '%s'.\n" [ArgStr "OFF"];
      MqttPublish ts 1 true "OFF";
      Display (g_currentMode s) false
        (uint32_t (MIN_STATE_SECONDS - g_currentStateTime s)) ] /\
  (forall topic payload : string,
      topic <> t ->
      exists rest : list effect,
        effects (Message topic payload) s =
          SerialPrintf "Error: MQTT message for unknown topic '%s'." [ArgStr topic]
          :: rest) /\
  snd (exec mqttPublishExcess s) =
    [ SerialPrintf "Publishing excess '%s'.\n"
        [ArgStr (if g_excess s then "ON" else "OFF")];
      MqttPublish ts 1 true (if g_excess s then "ON" else "OFF") ] /\
  snd (exec mqttPublishMode s) =
    [ SerialPrintf "Publishing mode %i.\n" [ArgInt (g_currentMode s)];
      MqttPublish tm 1 true (String_of_int (g_currentMode s)) ] /\
  lookup ["device"; "identifiers"] excess_config = Some (JArray [JString uniqueID]) /\
  lookup ["device"; "identifiers"] mode_config = Some (JArray [JString uniqueID]).
Proof.
  intros Ht Hts Htm.
  vm_compute in Ht. injection Ht as <-.
  vm_compute in Hts. injection Hts as <-.
  vm_compute in Htm. injection Htm as <-.
  split; [repeat split|]. split; [|split; [|split; [|split]]].
  - destruct connected; unfold_callback; cbn; auto 20.
  - intros topic payload. rewrite step_Message.
    cbn [g_excess set_excess].
    change (entityTopic g_excessName +++ "/set") with "sgready_board_Excess/set".
    rewrite andb_true_iff, !String.eqb_eq. reflexivity.
  - rewrite effects_Message, step_Message. reflexivity.
  - intros topic payload Hne. apply String.eqb_neq in Hne.
    rewrite effects_Message. unfold diagnostics.
    change (entityTopic g_excessName +++ "/set") with "sgready_board_Excess/set".
    rewrite Hne. eexists. reflexivity.
  - repeat split.
Qed.

Lemma discovery_topics_are_used_witness :
  lookup ["command_topic"] excess_config = Some (JString "sgready_board_Excess/set") /\
  lookup ["state_topic"] excess_config = Some (JString "sgready_board_Excess/state") /\
  lookup ["state_topic"] mode_config = Some (JString "sgready_board_Mode/state") /\
  snd (exec mqttPublishExcess (mkState true 1 0 0)) =
    [ SerialPrintf "Publishing excess '%s'.\n" [ArgStr "ON"];
      MqttPublish "sgready_board_Excess/state" 1 true "ON" ].
Proof.
  assert (H1 : lookup ["command_topic"] excess_config
               = Some (JString "sgready_board_Excess/set")) by (vm_compute; reflexivity).
  assert (H2 : lookup ["state_topic"] excess_config
               = Some (JString "sgready_board_Excess/state")) by (vm_compute; reflexivity).
  assert (H3 : lookup ["state_topic"] mode_config
               = Some (JString "sgready_board_Mode/state")) by (vm_compute; reflexivity).
  split; [exact H1|]. split; [exact H2|]. split; [exact H3|].
  apply (discovery_topics_are_used (fun _ => "{}") true true
           "sgready_board_Excess/set" "sgready_board_Excess/state"
           "sgready_board_Mode/state" (mkState true 1 0 0) H1 H2 H3).
Defined.

Lemma pin_after_filter (out : list effect) (p : level) :
  pin_after out p = pin_after (filter is_pin_write out) p.
Proof.
  revert p. induction out as [|e out IH]; intros p; [reflexivity|].
  destruct e; cbn; apply IH.
Qed.

(** What a callback of the firmware does to the globals, the pin and the
    retained mode. *)
Lemma sys_handler_core (serializeJson : json -> string) (ev : sys_event) (s : state) :
  fst (sys_handler serializeJson ev s)
    = match ev with Controller ev' => step ev' s | _ => s end /\
  filter is_pin_write (core_effects (snd (sys_handler serializeJson ev s)))
    = match ev with Controller ev' => filter is_pin_write (effects ev' s) | _ => [] end /\
  retained mode_state_topic (core_effects (snd (sys_handler serializeJson ev s)))
      (String_of_int (g_currentMode s))
    = String_of_int (g_currentMode (fst (sys_handler serializeJson ev s))) /\
  pin_after (core_effects (snd (sys_handler serializeJson ev s)))
      (level_of_mode (g_currentMode s))
    = level_of_mode (g_currentMode (fst (sys_handler serializeJson ev s))).
Proof.
  destruct ev as [ev'|wev|sessionPresent connected|wifiConnected| | | |].
  - unfold sys_handler, core. cbn [fst snd]. rewrite core_effects_map.
    change (fst (exec (handler ev') s)) with (step ev' s).
    change (snd (exec (handler ev') s)) with (effects ev' s).
    rewrite retained_mode_event, pin_after_event. auto.
  - destruct wev; repeat split.
  - destruct connected; repeat split.
  - destruct wifiConnected; repeat split.
  - repeat split.
  - repeat split.
  - repeat split.
  - repeat split.
Qed.

Lemma run_sys_cons (serializeJson : json -> string) (ev : sys_event)
    (evs : list sys_event) (s : state) :
  fst (run_sys serializeJson (ev :: evs) s)
    = fst (run_sys serializeJson evs (fst (sys_handler serializeJson ev s))) /\
  snd (run_sys serializeJson (ev :: evs) s)
    = snd (sys_handler serializeJson ev s)
      ++ snd (run_sys serializeJson evs (fst (sys_handler serializeJson ev s))).
Proof.
  cbn [run_sys]. destruct (sys_handler serializeJson ev s) as [s1 out1].
  cbn [fst snd]. destruct (run_sys serializeJson evs s1). auto.
Qed.

(** X12. The connectivity callbacks leave the controller alone: along every
    trace of the firmware (Wi-Fi events, MQTT connects, disconnects and
    subscription acknowledgements, reconnect timers, ticks, messages,
    publish acknowledgements), the globals are those the controller events
    alone produce, and the pin writes are exactly theirs. *)
Theorem connectivity_callbacks_keep_globals (serializeJson : json -> string)
    (evs : list sys_event) (s : state) :
  fst (run_sys serializeJson evs s) = run (controller_events evs) s /\
  filter is_pin_write (core_effects (snd (run_sys serializeJson evs s)))
    = filter is_pin_write (run_effects (controller_events evs) s).
Proof.
  revert s. induction evs as [|ev evs IH]; intros s; [auto|].
  destruct (run_sys_cons serializeJson ev evs s) as [-> ->].
  destruct (sys_handler_core serializeJson ev s) as (Hs & Hp & _).
  rewrite core_effects_app, filter_app, Hs, Hp.
  destruct ev as [ev'| | | | | | |]; cbn [controller_events flat_map app];
    fold (controller_events evs);
    try (cbn [run run_effects]; rewrite filter_app);
    destruct (IH (step ev' s)) as [-> ->] || destruct (IH s) as [-> ->]; auto.
Qed.

(** X13. Along every trace of the firmware the pin writes and the retained
    publishes of the mode follow the committed mode: if the level last
    written to the pin is that of the committed mode and the payload of the
    last retained publish call on the mode state topic is its decimal
    rendering, the same holds of the last pin write and the last such
    publish call after the trace (a connect republishes the committed mode;
    no connectivity callback writes the pin).  Whether a publish call
    reaches the broker is the client's matter and is not modelled. *)
Theorem firmware_outputs_follow_mode (serializeJson : json -> string)
    (evs : list sys_event) (s : state) :
  pin_after (core_effects (snd (run_sys serializeJson evs s)))
      (level_of_mode (g_currentMode s))
    = level_of_mode (g_currentMode (fst (run_sys serializeJson evs s))) /\
  retained mode_state_topic (core_effects (snd (run_sys serializeJson evs s)))
      (String_of_int (g_currentMode s))
    = String_of_int (g_currentMode (fst (run_sys serializeJson evs s))).
Proof.
  revert s. induction evs as [|ev evs IH]; intros s; [split; reflexivity|].
  destruct (run_sys_cons serializeJson ev evs s) as [-> ->].
  destruct (sys_handler_core serializeJson ev s) as (_ & _ & Hr & Hp).
  rewrite core_effects_app, retained_app, pin_after_app, Hr, Hp. apply IH.
Qed.

(** ** The keep-alive never pauses *)

Ltac mod32 :=
  change (2 ^ 32) with 4294967296 in *;
  Z.to_euclidean_division_equations; lia.

Lemma publish_within (evs : list event) :
  forall (s : state) (k : Z),
    0 <= k < Z.of_nat (count_ticks evs) ->
    0 <= g_currentStateTime s < 2 ^ 32 ->
    (g_currentStateTime s + k = 2 ^ 32 \/
     (g_currentStateTime s + k < 2 ^ 32 /\ (g_currentStateTime s + k) mod 60 = 0)) ->
    (1 <= mode_publishes (run_effects evs s))%nat.
Proof.
  induction evs as [|ev evs IH]; intros s k Hk Hc Hnext; [cbn in Hk; lia|].
  rewrite count_ticks_cons in Hk. cbn [run_effects]. rewrite mode_publishes_app.
  destruct ev as [|topic payload|packetId].
  - rewrite mode_publishes_tick. change MQTT_KEEPALIVE_INTERVAL with 60.
    destruct (Z.eq_dec k 0) as [->|Hk0].
    { rewrite Z.add_0_r in Hnext. destruct Hnext as [|[_ Hz]]; [lia|].
      apply Z.eqb_eq in Hz. rewrite Hz. cbn. lia. }
    destruct (tick_cases s) as [(Hm & Ht & _)|(Hm & _)]; rewrite Hm; [|lia].
    enough (1 <= mode_publishes (run_effects evs (step Tick s)))%nat by lia.
    destruct (Z.eq_dec (g_currentStateTime s + 1) (2 ^ 32)) as [Hw|Hw].
    + assert (Hu : uint32_t (g_currentStateTime s + 1) = 0).
      { unfold uint32_t. rewrite Hw. apply Z.mod_same. lia. }
      apply (IH (step Tick s) 0); try rewrite Ht, Hu.
      * lia.
      * lia.
      * right. cbn. lia.
    + assert (Hu : uint32_t (g_currentStateTime s + 1) = g_currentStateTime s + 1)
        by (apply Z.mod_small; lia).
      apply (IH (step Tick s) (k - 1)); try rewrite Ht, Hu; try lia.
      replace (g_currentStateTime s + 1 + (k - 1)) with (g_currentStateTime s + k) by lia.
      exact Hnext.
  - apply Nat.le_trans with (mode_publishes (run_effects evs (step (Message topic payload) s)));
      [|lia].
    apply (IH _ k); [lia | now rewrite step_Message | now rewrite step_Message].
  - apply Nat.le_trans with (mode_publishes (run_effects evs (step (PublishAck packetId) s)));
      [|lia].
    apply (IH _ k); [lia | exact Hc | exact Hnext].
Qed.

(** X14. The keep-alive never pauses: from every state whose dwell clock is
    a [uint32_t] value, whatever messages, acknowledgements and commits
    occur, any 60 consecutive ticks publish the committed mode at least
    once, also across the wrap of the dwell clock. *)
Theorem heartbeat_within_60_ticks (evs : list event) (s : state) :
  0 <= g_currentStateTime s < 2 ^ 32 ->
  count_ticks evs = 60%nat ->
  (1 <= mode_publishes (run_effects evs s))%nat.
Proof.
  intros Hc Hn.
  destruct (Z_lt_le_dec (g_currentStateTime s + 59) (2 ^ 32)) as [Hno|Hwrap].
  - apply (publish_within evs s ((60 - g_currentStateTime s mod 60) mod 60));
      [rewrite Hn; mod32 | exact Hc | right; mod32].
  - apply (publish_within evs s (2 ^ 32 - g_currentStateTime s));
      [rewrite Hn; mod32 | exact Hc | left; lia].
Qed.

Lemma heartbeat_within_60_ticks_witness :
  (1 <= mode_publishes
          (run_effects ([Message command_topic "ON"] ++ ticks 60)
             (mkState false 0 0 (2 ^ 32 - 16 + 1))))%nat.
Proof.
  apply (heartbeat_within_60_ticks ([Message command_topic "ON"] ++ ticks 60)
           (mkState false 0 0 (2 ^ 32 - 16 + 1))).
  - cbn. lia.
  - vm_compute. reflexivity.
Defined.

(** ** Silence with excess committed and desired *)

Lemma judged_dead_at (c : Z) (s : state) :
  judged_dead (set_currentStateTime (uint32_t c) s) =
  negb (uint32_t (c + 1) <? MIN_STATE_SECONDS)
  && mqtt_dead (uint32_t (c + 1)) (g_mqttLastResponseTime s).
Proof. unfold judged_dead. cbn. now rewrite uint32_t_succ. Qed.

(** Wherever the two clocks stand, one of the next 782 ticks passes the
    dwell gate with a difference above the threshold. *)
Lemma dead_within_782 (c last : Z) :
  0 <= c < 2 ^ 32 -> 0 <= last < 2 ^ 32 ->
  exists k : Z,
    0 <= k <= 781 /\
    negb (uint32_t (c + k + 1) <? MIN_STATE_SECONDS)
    && mqtt_dead (uint32_t (c + k + 1)) last = true.
Proof.
  intros Hc Hl.
  assert (Hdead : forall k, 0 <= k <= 781 ->
            600 <= (c + k + 1) mod 2 ^ 32 ->
            180 < ((c + k + 1) mod 2 ^ 32 - last) mod 2 ^ 32 ->
            exists k : Z, 0 <= k <= 781 /\
              negb (uint32_t (c + k + 1) <? MIN_STATE_SECONDS)
              && mqtt_dead (uint32_t (c + k + 1)) last = true).
  { intros k Hk Hgate Hdiff. exists k. split; [exact Hk|].
    unfold mqtt_dead, mqttDiff, uint32_t.
    change MIN_STATE_SECONDS with 600. change MQTT_DEAD_TIME with 180.
    apply andb_true_iff. split; [apply negb_true_iff, Z.ltb_ge | apply Z.ltb_lt];
      assumption. }
  destruct (Z_lt_le_dec ((c + 1) mod 2 ^ 32) 600) as [Hlow|Hhigh].
  - (* the gate opens after [600 - t0] ticks; 181 ticks later at the latest
       the difference is above the threshold *)
    destruct (Z_le_gt_dec
      (((c + (600 - (c + 1) mod 2 ^ 32) + 1) mod 2 ^ 32 - last) mod 2 ^ 32) 180).
    + apply (Hdead (600 - (c + 1) mod 2 ^ 32 + 181)); mod32.
    + apply (Hdead (600 - (c + 1) mod 2 ^ 32)); mod32.
  - destruct (Z_le_gt_dec (((c + 0 + 1) mod 2 ^ 32 - last) mod 2 ^ 32) 180);
      [|apply (Hdead 0); mod32].
    destruct (Z_lt_le_dec ((c + 1) mod 2 ^ 32 + 181) (2 ^ 32)).
    + apply (Hdead 181); mod32.
    + apply (Hdead (2 ^ 32 - (c + 1) + 600)); mod32.
Qed.

Lemma set_currentStateTime_twice (a b : Z) (s : state) :
  set_currentStateTime a (set_currentStateTime b s) = set_currentStateTime a s.
Proof. reflexivity. Qed.

(** With excess committed and desired, ticks only advance the dwell clock
    until one of them judges the broker dead; that one commits normal
    mode, for good. *)
Lemma silent_ticks_hold_or_revert (n : nat) :
  forall s : state,
    g_currentMode s = 1 -> g_excess s = true ->
    (g_currentMode (run (ticks n) s) = 0 /\ g_excess (run (ticks n) s) = false) \/
    (forall k : Z, 0 <= k < Z.of_nat n ->
       judged_dead (set_currentStateTime (uint32_t (g_currentStateTime s + k)) s) = false).
Proof.
  induction n as [|n IH]; intros s Hm He; [right; intros; lia|].
  cbn [ticks repeat run]. fold (ticks n).
  destruct (judged_dead s) eqn:Hd.
  - left. apply and_comm. apply ticks_stay_normal.
    + now apply judged_dead_tick.
    + rewrite step_Tick. unfold tick_state. unfold judged_dead in Hd.
      apply andb_true_iff in Hd as [Hgate Hdead]. apply negb_true_iff in Hgate.
      rewrite Hgate, Hdead, He, Hm. reflexivity.
  - assert (Hstep : step Tick s
                    = set_currentStateTime (uint32_t (g_currentStateTime s + 1)) s).
    { rewrite step_Tick. unfold tick_state. unfold judged_dead in Hd.
      destruct (_ <? _); [reflexivity|]. cbn in Hd. rewrite Hd, Hm, He. reflexivity. }
    destruct (IH (step Tick s)) as [Hrev|Hhold].
    + rewrite Hstep. exact Hm.
    + rewrite Hstep. exact He.
    + left. exact Hrev.
    + right. intros k Hk. rewrite judged_dead_at.
      destruct (Z.eq_dec k 0) as [->|Hk0].
      * rewrite Z.add_0_r. exact Hd.
      * specialize (Hhold (k - 1) ltac:(lia)).
        rewrite Hstep, set_currentStateTime_twice in Hhold.
        cbn [g_currentStateTime set_currentStateTime] in Hhold.
        rewrite judged_dead_at in Hhold.
        cbn [g_mqttLastResponseTime set_currentStateTime] in Hhold.
        replace (uint32_t (uint32_t (g_currentStateTime s + 1) + (k - 1) + 1))
          with (uint32_t (g_currentStateTime s + k + 1)) in Hhold
          by (unfold uint32_t; mod32).
        exact Hhold.
Qed.

(** X15. The fail-safe: with excess committed and still desired, if the
    broker falls silent (ticks only, no acknowledgement, no message), the
    controller is back in normal mode, desired and committed, after at most
    782 ticks, wherever the two clocks stand, and stays there. *)
Theorem silent_excess_reverts (s : state) (n : nat) :
  0 <= g_currentStateTime s < 2 ^ 32 ->
  0 <= g_mqttLastResponseTime s < 2 ^ 32 ->
  g_currentMode s = 1 -> g_excess s = true ->
  (782 <= n)%nat ->
  g_currentMode (run (ticks n) s) = 0 /\ g_excess (run (ticks n) s) = false.
Proof.
  intros Hc Hl Hm He Hn.
  destruct (silent_ticks_hold_or_revert n s Hm He) as [Hrev|Hhold]; [exact Hrev|].
  destruct (dead_within_782 _ _ Hc Hl) as (k & Hk & Hdead).
  specialize (Hhold k ltac:(lia)). rewrite judged_dead_at in Hhold. congruence.
Qed.

(** The bound is reached: with the dwell clock about to wrap and the last
    acknowledgement recorded at 600, excess is still committed after 781
    ticks. *)
Lemma silent_excess_reverts_witness :
  g_currentMode (run (ticks 782) (mkState true 1 600 (2 ^ 32 - 1))) = 0 /\
  g_currentMode (run (ticks 781) (mkState true 1 600 (2 ^ 32 - 1))) = 1.
Proof.
  split; [|vm_compute; reflexivity].
  apply (silent_excess_reverts (mkState true 1 600 (2 ^ 32 - 1)) 782);
    cbn; try lia; reflexivity.
Defined.

(** ** The remaining dwell time *)

(** X16. The committed mode holds while the dwell clock is below 600: from
    a state with dwell clock [c], along every trace with fewer than
    [600 - c] ticks (whatever messages and acknowledgements it holds), the
    committed mode is unchanged and the dwell clock has counted the ticks;
    so the remaining time the display shows, [MIN_STATE_SECONDS] minus the
    dwell clock, is a lower bound on the time to the next commit. *)
Theorem mode_held_for_remaining_time (evs : list event) (s : state) :
  0 <= g_currentStateTime s ->
  g_currentStateTime s + Z.of_nat (count_ticks evs) < MIN_STATE_SECONDS ->
  g_currentMode (run evs s) = g_currentMode s /\
  g_currentStateTime (run evs s) = g_currentStateTime s + Z.of_nat (count_ticks evs) /\
  commit_ticks evs s 0 = [].
Proof.
  assert (Hms : MIN_STATE_SECONDS = 600) by reflexivity.
  generalize 0%nat as now.
  revert s. induction evs as [|ev evs IH]; intros s now Hc Hn.
  { cbn. repeat split. lia. }
  rewrite count_ticks_cons in *.
  destruct ev as [|topic payload|packetId]; cbn [run commit_ticks].
  - assert (Hu : uint32_t (g_currentStateTime s + 1) = g_currentStateTime s + 1)
      by (apply Z.mod_small; lia).
    destruct (tick_cases s) as [(Hm & Ht & _)|(_ & Hge & _)]; [|lia].
    rewrite Hu in Ht.
    destruct (IH (step Tick s) (S now)) as (Hm' & Hc' & Hn'); try (rewrite Ht; lia).
    rewrite Hm, Hm', Hc', Hn', Ht. unfold mode_changes in Hm.
    apply negb_false_iff, Z.eqb_eq in Hm. repeat split; [exact Hm | lia].
  - destruct (IH (step (Message topic payload) s) now) as (Hm' & Hc' & Hn');
      try (rewrite step_Message; cbn; lia).
    rewrite Hm', Hc', Hn', step_Message. cbn. repeat split; lia.
  - destruct (IH (step (PublishAck packetId) s) now) as (Hm' & Hc' & Hn');
      try (rewrite step_PublishAck; cbn; lia).
    rewrite Hm', Hc', Hn', step_PublishAck. cbn. repeat split; lia.
Qed.

Lemma mode_held_for_remaining_time_witness :
  g_currentMode
    (run ([Message command_topic "ON"] ++ ticks 598 ++ [PublishAck 1; Tick]) initial) = 0.
Proof.
  apply (mode_held_for_remaining_time
           ([Message command_topic "ON"] ++ ticks 598 ++ [PublishAck 1; Tick]) initial).
  - cbn. lia.
  - vm_compute. reflexivity.
Defined.
